(** * gpsd-threaded: the fix accumulator of [gpsresponse.py]

    A shallow embedding of [GpsResponse] (src/gpsdthreaded/gpsresponse.py):
    the decoded gpsd reports are JSON values, the object is a record of its
    attributes, the [parse_*] methods are state transformers that may raise
    and that keep every assignment made before the raise, and the accessors
    are pure reads that may raise. *)

From Stdlib Require Import ZArith Bool.
From Stdlib Require Import Floats.PrimFloat Floats.SpecFloat Floats.FloatOps.
From Stdlib Require Import Floats.FloatAxioms.
From stdpp Require Import gmap strings list fin_maps.

#[local] Set Warnings "-inexact-float,-register-all".
#[local] Open Scope Z_scope.

(** ** Decoded reports

    What [json.loads] hands to the client: [None], [bool], [int], [float],
    [str], [list] and [dict] with [str] keys. Python's [float] is IEEE
    binary64, which is what the primitive [float] is. *)

Inductive json : Type :=
  | JNull
  | JBool (b : bool)
  | JInt (z : Z)
  | JFloat (f : float)
  | JStr (s : string)
  | JArr (l : list json)
  | JObj (d : gmap string json).

(** The exceptions the module can raise: Python's own, [NoFixError] of
    gpsresponse.py and the [UserWarning] of [parse_poll]. *)

Inductive exn : Type :=
  | KeyError (key : json)
  | IndexError
  | TypeError
  | ValueError
  | AttributeError
  | NoFixError (msg : string)
  | UserWarning (msg : string).

Inductive result (A : Type) : Type :=
  | Ok (a : A)
  | Raise (e : exn).

Arguments Ok {A} a.
Arguments Raise {A} e.

Definition rbind {A B} (r : result A) (k : A → result B) : result B :=
  match r with
  | Ok a => k a
  | Raise e => Raise e
  end.

Declare Scope py_scope.
Delimit Scope py_scope with py.

Notation "'let?' x ':=' r 'in' k" := (rbind r (fun x => k))
  (at level 10, x name, r at level 100, k at level 200) : py_scope.

(** ** The Python operations the module relies on *)

Module Py.

(** Numbers: [bool] is a subclass of [int]. *)
Inductive num : Type :=
  | NInt (z : Z)
  | NFloat (f : float).

Definition as_num (v : json) : option num :=
  match v with
  | JBool b => Some (NInt (if b then 1 else 0))
  | JInt z => Some (NInt z)
  | JFloat f => Some (NFloat f)
  | _ => None
  end.

(** An [int] against a [float], exactly (no rounding of the [int]);
    [None] when the [float] is a NaN. *)
Definition cmp_int_float (z : Z) (f : float) : option comparison :=
  match Prim2SF f with
  | S754_nan => None
  | S754_zero _ => Some (z ?= 0)
  | S754_infinity neg => Some (if neg then Gt else Lt)
  | S754_finite neg m e =>
      let sm := if neg then Z.neg m else Z.pos m in
      Some (if 0 <=? e then z ?= sm * 2 ^ e else z * 2 ^ (- e) ?= sm)
  end.

Definition cmp_float (f g : float) : option comparison :=
  match PrimFloat.compare f g with
  | FEq => Some Eq
  | FLt => Some Lt
  | FGt => Some Gt
  | FNotComparable => None
  end.

Definition cmp_num (a b : num) : option comparison :=
  match a, b with
  | NInt x, NInt y => Some (x ?= y)
  | NFloat f, NFloat g => cmp_float f g
  | NInt x, NFloat g => cmp_int_float x g
  | NFloat f, NInt y => CompOpp <$> cmp_int_float y f
  end.

Definition num_lt (a b : num) : bool :=
  match cmp_num a b with Some Lt => true | _ => false end.

Definition num_ge (a b : num) : bool :=
  match cmp_num a b with Some Gt | Some Eq => true | _ => false end.

Definition num_eq (a b : num) : bool :=
  match cmp_num a b with Some Eq => true | _ => false end.

(** [v >= n] and [v < n] for an [int] literal [n]: only numbers are
    ordered against an [int]. *)
Definition ge_int (v : json) (n : Z) : result bool :=
  match as_num v with
  | Some a => Ok (num_ge a (NInt n))
  | None => Raise TypeError
  end.

Definition lt_int (v : json) (n : Z) : result bool :=
  match as_num v with
  | Some a => Ok (num_lt a (NInt n))
  | None => Raise TypeError
  end.

(** [abs(v)] *)
Definition abs (v : json) : result json :=
  match v with
  | JBool b => Ok (JInt (if b then 1 else 0))
  | JInt z => Ok (JInt (Z.abs z))
  | JFloat f => Ok (JFloat (PrimFloat.abs f))
  | _ => Raise TypeError
  end.

(** [v == 'c'], [v == True] and [v == None] *)
Definition eq_str (v : json) (c : string) : bool :=
  match v with
  | JStr s => bool_decide (s = c)
  | _ => false
  end.

Definition eq_True (v : json) : bool :=
  match as_num v with
  | Some a => num_eq a (NInt 1)
  | None => false
  end.

Definition eq_None (v : json) : bool :=
  match v with
  | JNull => true
  | _ => false
  end.

(** Truth value, as [not v] and [if v] test it. *)
Definition truthy (v : json) : bool :=
  match v with
  | JNull => false
  | JBool b => b
  | JInt z => negb (z =? 0)
  | JFloat f => negb (PrimFloat.eqb f 0)
  | JStr s => negb (bool_decide (s = ""))
  | JArr l => negb (bool_decide (l = []))
  | JObj d => negb (bool_decide (d = ∅))
  end.

(** [v[k]] for a [str] key. *)
Definition getitem (v : json) (k : string) : result json :=
  match v with
  | JObj d =>
      match d !! k with
      | Some x => Ok x
      | None => Raise (KeyError (JStr k))
      end
  | _ => Raise TypeError
  end.

(** The characters of a [str], each a [str] of length one. *)
Fixpoint chars (s : string) : list json :=
  match s with
  | EmptyString => []
  | String c s' => JStr (String c EmptyString) :: chars s'
  end.

(** [v[-1]] *)
Definition getitem_last (v : json) : result json :=
  match v with
  | JArr l =>
      match last l with
      | Some x => Ok x
      | None => Raise IndexError
      end
  | JStr s =>
      match last (chars s) with
      | Some x => Ok x
      | None => Raise IndexError
      end
  | JObj _ => Raise (KeyError (JInt (-1)))
  | _ => Raise TypeError
  end.

Fixpoint occurs (k s : string) : bool :=
  String.prefix k s ||
  match s with
  | EmptyString => false
  | String _ s' => occurs k s'
  end.

(** ['k' in v]: a key of a [dict], an element of a [list], a substring
    of a [str]. *)
Definition contains (k : string) (v : json) : result bool :=
  match v with
  | JObj d => Ok (bool_decide (is_Some (d !! k)))
  | JArr l => Ok (existsb (fun x => eq_str x k) l)
  | JStr s => Ok (occurs k s)
  | _ => Raise TypeError
  end.

(** [len(v)] *)
Definition len (v : json) : result Z :=
  match v with
  | JArr l => Ok (Z.of_nat (length l))
  | JStr s => Ok (Z.of_nat (String.length s))
  | JObj d => Ok (Z.of_nat (size d))
  | _ => Raise TypeError
  end.

(** What [for x in v] yields: the elements of a [list], the characters
    of a [str], the keys of a [dict]. *)
Definition iter (v : json) : result (list json) :=
  match v with
  | JArr l => Ok l
  | JStr s => Ok (chars s)
  | JObj d => Ok (JStr <$> (map_to_list d).*1)
  | _ => Raise TypeError
  end.

(** [d[k] if k in d else dflt] *)
Definition get_or (d : json) (k : string) (dflt : json) : result json :=
  (let? b := contains k d in
   if b then getitem d k else Ok dflt)%py.

(** [v == n] for an [int] literal [n]; [==] never raises. *)
Definition eq_int (v : json) (n : Z) : bool :=
  match as_num v with
  | Some x => num_eq x (NInt n)
  | None => false
  end.

(** [a < b]. Numbers are ordered by value and strings by code point;
    two lists are ordered by Python's lexicographic rule, which consults
    the identity of the elements and is taken as a parameter ([None]
    when it raises [TypeError]); nothing else is ordered. *)
Section Ordering.
Variable list_lt : list json → list json → option bool.

Definition lt (a b : json) : result bool :=
  match as_num a, as_num b with
  | Some x, Some y => Ok (num_lt x y)
  | _, _ =>
      match a, b with
      | JStr s, JStr s' => Ok (String.ltb s s')
      | JArr l, JArr l' =>
          match list_lt l l' with
          | Some r => Ok r
          | None => Raise TypeError
          end
      | _, _ => Raise TypeError
      end
  end.

(** [max(a, b)]: [b] when [b > a], else [a]. *)
Definition max2 (a b : json) : result json :=
  (let? bigger := lt a b in
   Ok (if bigger : bool then b else a))%py.
End Ordering.

End Py.

(** ** The object and its methods *)

Module GpsResponse.

(** The attributes set by [__init__]. [sats] and [sats_valid] only ever
    hold a [len(...)] or the literal [0]; the others hold whatever the
    report carried. [error] is the [dict] of error margins, keyed by
    ['c'], ['s'], ['t'], ['v'], ['x'], ['y']. *)
Record t : Type := mk {
  mode : json;
  sats : Z;
  sats_valid : Z;
  lon : json;
  lat : json;
  alt : json;
  track : json;
  hspeed : json;
  climb : json;
  time : json;
  error : gmap string json;
  heading : json;
  pitch : json;
  roll : json
}.

(** [GpsResponse()] *)
Definition init : t :=
  {| mode := JInt 0; sats := 0; sats_valid := 0;
     lon := JFloat 0; lat := JFloat 0; alt := JFloat 0;
     track := JInt 0; hspeed := JInt 0; climb := JInt 0;
     time := JStr ""; error := ∅;
     heading := JFloat 0; pitch := JFloat 0; roll := JFloat 0 |}.

(** Attribute assignments [self.x = v]. *)
Definition set_mode (v : json) (s : t) : t :=
  mk v (sats s) (sats_valid s) (lon s) (lat s) (alt s) (track s) (hspeed s)
     (climb s) (time s) (error s) (heading s) (pitch s) (roll s).
Definition set_sats (v : Z) (s : t) : t :=
  mk (mode s) v (sats_valid s) (lon s) (lat s) (alt s) (track s) (hspeed s)
     (climb s) (time s) (error s) (heading s) (pitch s) (roll s).
Definition set_sats_valid (v : Z) (s : t) : t :=
  mk (mode s) (sats s) v (lon s) (lat s) (alt s) (track s) (hspeed s)
     (climb s) (time s) (error s) (heading s) (pitch s) (roll s).
Definition set_lon (v : json) (s : t) : t :=
  mk (mode s) (sats s) (sats_valid s) v (lat s) (alt s) (track s) (hspeed s)
     (climb s) (time s) (error s) (heading s) (pitch s) (roll s).
Definition set_lat (v : json) (s : t) : t :=
  mk (mode s) (sats s) (sats_valid s) (lon s) v (alt s) (track s) (hspeed s)
     (climb s) (time s) (error s) (heading s) (pitch s) (roll s).
Definition set_alt (v : json) (s : t) : t :=
  mk (mode s) (sats s) (sats_valid s) (lon s) (lat s) v (track s) (hspeed s)
     (climb s) (time s) (error s) (heading s) (pitch s) (roll s).
Definition set_track (v : json) (s : t) : t :=
  mk (mode s) (sats s) (sats_valid s) (lon s) (lat s) (alt s) v (hspeed s)
     (climb s) (time s) (error s) (heading s) (pitch s) (roll s).
Definition set_hspeed (v : json) (s : t) : t :=
  mk (mode s) (sats s) (sats_valid s) (lon s) (lat s) (alt s) (track s) v
     (climb s) (time s) (error s) (heading s) (pitch s) (roll s).
Definition set_climb (v : json) (s : t) : t :=
  mk (mode s) (sats s) (sats_valid s) (lon s) (lat s) (alt s) (track s)
     (hspeed s) v (time s) (error s) (heading s) (pitch s) (roll s).
Definition set_time (v : json) (s : t) : t :=
  mk (mode s) (sats s) (sats_valid s) (lon s) (lat s) (alt s) (track s)
     (hspeed s) (climb s) v (error s) (heading s) (pitch s) (roll s).
Definition set_error (v : gmap string json) (s : t) : t :=
  mk (mode s) (sats s) (sats_valid s) (lon s) (lat s) (alt s) (track s)
     (hspeed s) (climb s) (time s) v (heading s) (pitch s) (roll s).
Definition set_heading (v : json) (s : t) : t :=
  mk (mode s) (sats s) (sats_valid s) (lon s) (lat s) (alt s) (track s)
     (hspeed s) (climb s) (time s) (error s) v (pitch s) (roll s).
Definition set_pitch (v : json) (s : t) : t :=
  mk (mode s) (sats s) (sats_valid s) (lon s) (lat s) (alt s) (track s)
     (hspeed s) (climb s) (time s) (error s) (heading s) v (roll s).
Definition set_roll (v : json) (s : t) : t :=
  mk (mode s) (sats s) (sats_valid s) (lon s) (lat s) (alt s) (track s)
     (hspeed s) (climb s) (time s) (error s) (heading s) (pitch s) v.

(** [self.error[k] = v] *)
Definition set_error_item (k : string) (v : json) (s : t) : t :=
  set_error (<[k := v]> (error s)) s.

(** A method body: it runs on the object, returns or raises, and leaves
    the object as the assignments executed so far made it. *)
Definition M (A : Type) : Type := t → result A * t.

Definition ret {A} (a : A) : M A := fun s => (Ok a, s).
Definition raise {A} (e : exn) : M A := fun s => (Raise e, s).
Definition lift {A} (r : result A) : M A := fun s => (r, s).
Definition assign (f : t → t) : M unit := fun s => (Ok tt, f s).
Definition bind {A B} (c : M A) (k : A → M B) : M B :=
  fun s =>
    match c s with
    | (Ok a, s') => k a s'
    | (Raise e, s') => (Raise e, s')
    end.

Notation "'let*' x ':=' c 'in' k" := (bind c (fun x => k))
  (at level 10, x name, c at level 100, k at level 200) : py_scope.
Notation "c >> k" := (bind c (fun _ => k))
  (at level 100, k at level 200, right associativity) : py_scope.

#[local] Open Scope py_scope.

(** The state a call leaves and what it returned. *)
Definition exec {A} (c : M A) (s : t) : t := (c s).2.
Definition outcome {A} (c : M A) (s : t) : result A := (c s).1.

(** [parse_tpv], lines 73-95. *)
Definition parse_tpv (last_tpv : json) : M unit :=
  let* m := lift (Py.getitem last_tpv "mode") in
  assign (set_mode m) >>
  let* m2 := lift (Py.getitem last_tpv "mode") in
  let* ge2 := lift (Py.ge_int m2 2) in
  (if ge2 : bool then
     let* v := lift (Py.get_or last_tpv "lon" (JFloat 0)) in assign (set_lon v) >>
     let* v := lift (Py.get_or last_tpv "lat" (JFloat 0)) in assign (set_lat v) >>
     let* v := lift (Py.get_or last_tpv "track" (JInt 0)) in assign (set_track v) >>
     let* v := lift (Py.get_or last_tpv "speed" (JInt 0)) in assign (set_hspeed v) >>
     let* v := lift (Py.get_or last_tpv "time" (JStr "")) in assign (set_time v) >>
     let* eps := lift (Py.get_or last_tpv "eps" (JInt 0)) in
     let* ept := lift (Py.get_or last_tpv "ept" (JInt 0)) in
     let* epx := lift (Py.get_or last_tpv "epx" (JInt 0)) in
     let* epy := lift (Py.get_or last_tpv "epy" (JInt 0)) in
     assign (set_error {[ "c" := JInt 0; "s" := eps; "t" := ept;
                          "v" := JInt 0; "x" := epx; "y" := epy ]})
   else ret tt) >>
  let* m3 := lift (Py.getitem last_tpv "mode") in
  let* ge3 := lift (Py.ge_int m3 3) in
  if ge3 : bool then
    let* v := lift (Py.get_or last_tpv "alt" (JFloat 0)) in assign (set_alt v) >>
    let* v := lift (Py.get_or last_tpv "climb" (JInt 0)) in assign (set_climb v) >>
    let* v := lift (Py.get_or last_tpv "epc" (JInt 0)) in assign (set_error_item "c" v) >>
    let* v := lift (Py.get_or last_tpv "epv" (JInt 0)) in assign (set_error_item "v" v)
  else ret tt.

(** The list comprehension of [parse_sky]:
    [[sat for sat in sats if sat['used'] == True]]. *)
Fixpoint used_sats (l : list json) : result (list json) :=
  match l with
  | [] => Ok []
  | sat :: l' =>
      (let? u := Py.getitem sat "used" in
       let? rest := used_sats l' in
       Ok (if Py.eq_True u then sat :: rest else rest))%py
  end.

(** [parse_sky], lines 97-104. *)
Definition parse_sky (last_sky : json) : M unit :=
  let* has := lift (Py.contains "satellites" last_sky) in
  if has : bool then
    let* l := lift (Py.getitem last_sky "satellites") in
    let* n := lift (Py.len l) in
    assign (set_sats n) >>
    let* l := lift (Py.getitem last_sky "satellites") in
    let* xs := lift (Py.iter l) in
    let* us := lift (used_sats xs) in
    assign (set_sats_valid (Z.of_nat (length us)))
  else
    assign (set_sats 0) >>
    assign (set_sats_valid 0).

(** [parse_att], lines 106-109. *)
Definition parse_att (last_att : json) : M unit :=
  let* v := lift (Py.get_or last_att "heading" (JFloat 0)) in assign (set_heading v) >>
  let* v := lift (Py.get_or last_att "pitch" (JFloat 0)) in assign (set_pitch v) >>
  let* v := lift (Py.get_or last_att "roll" (JFloat 0)) in assign (set_roll v).

(** [parse_poll], lines 111-116. *)
Definition parse_poll (packet : json) : M unit :=
  let* active := lift (Py.getitem packet "active") in
  if negb (Py.truthy active) then raise (UserWarning "GPS not active")
  else
    let* tpvs := lift (Py.getitem packet "tpv") in
    let* last_tpv := lift (Py.getitem_last tpvs) in
    parse_tpv last_tpv >>
    let* skys := lift (Py.getitem packet "sky") in
    let* last_sky := lift (Py.getitem_last skys) in
    parse_sky last_sky.

(** [parse_packet], lines 118-127. *)
Definition parse_packet (packet : json) : M unit :=
  let* c := lift (Py.getitem packet "class") in
  if Py.eq_str c "POLL" then parse_poll packet
  else
    let* c := lift (Py.getitem packet "class") in
    if Py.eq_str c "TPV" then parse_tpv packet
    else
      let* c := lift (Py.getitem packet "class") in
      if Py.eq_str c "SKY" then parse_sky packet
      else
        let* c := lift (Py.getitem packet "class") in
        if Py.eq_str c "ATT" then parse_att packet
        else ret tt.

(** [from_json], lines 129-138: a fresh object, or the exception. *)
Definition from_json (packet : json) : result t :=
  match parse_packet packet init with
  | (Ok _, s) => Ok s
  | (Raise e, _) => Raise e
  end.

(** *** The accessors *)

(** [position], lines 140-148. *)
Definition position (self : t) : result (json * json) :=
  (let? low := Py.lt_int (mode self) 2 in
   if low : bool then Raise (NoFixError "Needs at least 2D fix")
   else Ok (lat self, lon self))%py.

(** [altitude], lines 150-158. *)
Definition altitude (self : t) : result json :=
  (let? low := Py.lt_int (mode self) 3 in
   if low : bool then Raise (NoFixError "Needs at least 3D fix")
   else Ok (alt self))%py.

(** [movement], lines 160-172. *)
Definition movement (self : t) : result (gmap string json) :=
  (let? low := Py.lt_int (mode self) 3 in
   if low : bool then Raise (NoFixError "Needs at least 3D fix")
   else Ok {[ "speed" := hspeed self; "track" := track self;
              "climb" := climb self ]})%py.

Section Accessors.
(** Python's ordering of two lists (see [Py.lt]). *)
Variable list_lt : list json → list json → option bool.

(** [speed_vertical], lines 174-185. *)
Definition speed_vertical (self : t) : result json :=
  (let? low := Py.lt_int (mode self) 2 in
   if low : bool then Raise (NoFixError "Needs at least 2D fix")
   else
     let? a := Py.abs (climb self) in
     let? c := Py.getitem (JObj (error self)) "c" in
     let? small := Py.lt list_lt a c in
     if small : bool then Ok (JInt 0) else Ok (climb self))%py.

(** [speed], lines 187-198. *)
Definition speed (self : t) : result json :=
  (let? low := Py.lt_int (mode self) 2 in
   if low : bool then Raise (NoFixError "Needs at least 2D fix")
   else
     let? e := Py.getitem (JObj (error self)) "s" in
     let? small := Py.lt list_lt (hspeed self) e in
     if small : bool then Ok (JInt 0) else Ok (hspeed self))%py.

(** [position_precision], lines 200-212. *)
Definition position_precision (self : t) : result (json * json) :=
  (let? low := Py.lt_int (mode self) 2 in
   if low : bool then Raise (NoFixError "Needs at least 2D fix")
   else
     let? x := Py.getitem (JObj (error self)) "x" in
     let? y := Py.getitem (JObj (error self)) "y" in
     let? h := Py.max2 list_lt x y in
     let? v := Py.getitem (JObj (error self)) "v" in
     Ok (h, v))%py.
End Accessors.

Definition gpsTimeFormat : string := "%Y-%m-%dT%H:%M:%S.%fZ".

Section Clock.
(** [datetime.datetime], [datetime.datetime.strptime] on two [str]
    ([None] when it raises [ValueError]) and the reading of
    [datetime.datetime.now().isoformat()] at the call. *)
Variable datetime : Type.
Variable strptime : string → string → option datetime.
Variable now_isoformat : string.

Inductive timeval : Type :=
  | IsoString (iso : string)
  | Datetime (d : datetime).

(** [get_time], lines 222-239. On line 237 [time] is the module
    imported on line 1, which has no attribute [replace]. *)
Definition get_time (self : t) (local_time : bool) : result timeval :=
  (let? low := Py.lt_int (mode self) 2 in
   if low : bool then Raise (NoFixError "Needs at least 2D fix")
   else
     let? rval :=
       if Py.eq_str (time self) "" || Py.eq_None (time self)
       then Ok (IsoString now_isoformat)
       else
         match time self with
         | JStr ts =>
             match strptime ts gpsTimeFormat with
             | Some d => Ok (Datetime d)
             | None => Raise ValueError
             end
         | _ => Raise TypeError
         end in
     if local_time then Raise AttributeError else Ok rval)%py.
End Clock.

(** [get_heading], [get_pitch], [get_roll], lines 241-260. *)
Definition get_heading (self : t) : json := heading self.
Definition get_pitch (self : t) : json := pitch self.
Definition get_roll (self : t) : json := roll self.

Section Formatting.
(** Python's [str()], which [str.format] applies to each argument of a
    [{}] field. *)
Variable str : json → string.

(** [map_url], lines 214-220. *)
Definition map_url (self : t) : result string :=
  (let? low := Py.lt_int (mode self) 2 in
   if low : bool then Raise (NoFixError "Needs at least 2D fix")
   else Ok ("http://www.openstreetmap.org/?mlat=" +:+ str (lat self)
            +:+ "&mlon=" +:+ str (lon self) +:+ "&zoom=15"))%py.

(** [modes[key]] for the dict [modes] of [__repr__], lines 263-268: a
    number finds the entry of the [int] it equals. *)
Definition modes_getitem (key : json) : result string :=
  if Py.eq_int key 0 then Ok "No mode"
  else if Py.eq_int key 1 then Ok "No fix"
  else if Py.eq_int key 2 then Ok "2D fix"
  else if Py.eq_int key 3 then Ok "3D fix"
  else Raise (KeyError key).

(** [__repr__], lines 262-274; [None] when the body falls through its
    three tests and returns nothing. *)
Definition repr (self : t) : result (option string) :=
  (let? low := Py.lt_int (mode self) 2 in
   if low : bool then
     let? name := modes_getitem (mode self) in
     Ok (Some ("<GpsResponse " +:+ name +:+ ">"))
   else if Py.eq_int (mode self) 2 then
     Ok (Some ("<GpsResponse 2D Fix lat: " +:+ str (lat self)
               +:+ ", lon: " +:+ str (lon self)
               +:+ ", heading: " +:+ str (heading self) +:+ ">"))
   else if Py.eq_int (mode self) 3 then
     Ok (Some ("<GpsResponse 3D Fix lat: " +:+ str (lat self)
               +:+ ", lon: " +:+ str (lon self)
               +:+ ", alt: " +:+ str (alt self)
               +:+ ", heading: " +:+ str (heading self)
               +:+ ", pitch: " +:+ str (pitch self)
               +:+ ", roll: " +:+ str (roll self) +:+ ">"))
   else Ok None)%py.
End Formatting.

(** *** Sequences of reports

    The reports are applied in order to the same object; a report whose
    application raises leaves the object as it was at the raise. *)
Definition parse_packets (packets : list json) (s : t) : t :=
  foldl (fun acc p => exec (parse_packet p) acc) s packets.

(** What lines 77-89 and lines 92-95 of [parse_tpv] assign when the
    report is the dict [d]. *)
Definition block_2d (d : gmap string json) (s : t) : t :=
  set_error {[ "c" := JInt 0; "s" := default (JInt 0) (d !! "eps");
               "t" := default (JInt 0) (d !! "ept"); "v" := JInt 0;
               "x" := default (JInt 0) (d !! "epx");
               "y" := default (JInt 0) (d !! "epy") ]}
    (set_time (default (JStr "") (d !! "time"))
      (set_hspeed (default (JInt 0) (d !! "speed"))
        (set_track (default (JInt 0) (d !! "track"))
          (set_lat (default (JFloat 0) (d !! "lat"))
            (set_lon (default (JFloat 0) (d !! "lon")) s))))).

Definition block_3d (d : gmap string json) (s : t) : t :=
  set_error_item "v" (default (JInt 0) (d !! "epv"))
    (set_error_item "c" (default (JInt 0) (d !! "epc"))
      (set_climb (default (JInt 0) (d !! "climb"))
        (set_alt (default (JFloat 0) (d !! "alt")) s))).

(** The six keys of the error margins. *)
Definition margin_keys : list string := ["c"; "s"; "t"; "v"; "x"; "y"].

Definition has_margins (s : t) : Prop :=
  Forall (fun k => is_Some (error s !! k)) margin_keys.

(** A satellite entry that carries the [used] flag, and whether it is
    flagged: [sat['used'] == True]. *)
Definition carries_used (sat : json) : bool :=
  match Py.getitem sat "used" with
  | Ok _ => true
  | Raise _ => false
  end.

Definition flagged_used (sat : json) : bool :=
  match Py.getitem sat "used" with
  | Ok u => Py.eq_True u
  | Raise _ => false
  end.

(** Every entry that [parse_sky] would visit in [sky] carries the flag. *)
Definition sats_flagged (sky : json) : bool :=
  match Py.getitem sky "satellites" with
  | Ok l =>
      match Py.iter l with
      | Ok xs => forallb carries_used xs
      | Raise _ => true
      end
  | Raise _ => true
  end.

(** The same for a packet: its own satellites and those of the entry
    that [parse_poll] takes from its ['sky'] list. *)
Definition flags_ok (packet : json) : bool :=
  sats_flagged packet &&
  match Py.getitem packet "sky" with
  | Ok skys =>
      match Py.getitem_last skys with
      | Ok last_sky => sats_flagged last_sky
      | Raise _ => true
      end
  | Raise _ => true
  end.

End GpsResponse.

Import GpsResponse.
#[local] Open Scope py_scope.

(** ** Reasoning about method bodies *)

(** The exceptions of Python's own operations. *)
Definition builtin (e : exn) : Prop :=
  match e with
  | KeyError _ | IndexError | TypeError => True
  | _ => False
  end.

(** [c] raises nothing but exceptions in [P]; [c] takes every object to
    one related to it by [R], also when it raises. *)
Definition raises_only {A} (P : exn → Prop) (c : M A) : Prop :=
  ∀ s e, outcome c s = Raise e → P e.

Definition preserves {A} (R : t → t → Prop) (c : M A) : Prop :=
  ∀ s, R s (exec c s).

(** The relation of a step that keeps the invariant [I]. *)
Definition keeps (I : t → Prop) : t → t → Prop := fun s s' => I s → I s'.

(** [c] keeps the invariant [I] whenever it returns. *)
Definition ok_keeps {A} (I : t → Prop) (c : M A) : Prop :=
  ∀ s a, outcome c s = Ok a → I s → I (exec c s).

(** An object of mode 2 or more has its six error margins. *)
Definition margins_inv (s : t) : Prop :=
  Py.ge_int (mode s) 2 = Ok true → has_margins s.

(** No more satellites used than visible. *)
Definition sats_inv (s : t) : Prop := sats_valid s ≤ sats s.

(** A set of attribute assignments with fixed right-hand sides: for each
    attribute, the value it is given, if any. *)
Record patch : Type := mk_patch {
  p_mode : option json;
  p_sats : option Z;
  p_sats_valid : option Z;
  p_lon : option json;
  p_lat : option json;
  p_alt : option json;
  p_track : option json;
  p_hspeed : option json;
  p_climb : option json;
  p_time : option json;
  p_error : option (gmap string json);
  p_heading : option json;
  p_pitch : option json;
  p_roll : option json
}.

Definition apply_patch (p : patch) (s : t) : t :=
  {| mode := default (mode s) (p_mode p);
     sats := default (sats s) (p_sats p);
     sats_valid := default (sats_valid s) (p_sats_valid p);
     lon := default (lon s) (p_lon p);
     lat := default (lat s) (p_lat p);
     alt := default (alt s) (p_alt p);
     track := default (track s) (p_track p);
     hspeed := default (hspeed s) (p_hspeed p);
     climb := default (climb s) (p_climb p);
     time := default (time s) (p_time p);
     error := default (error s) (p_error p);
     heading := default (heading s) (p_heading p);
     pitch := default (pitch s) (p_pitch p);
     roll := default (roll s) (p_roll p) |}.

(** [p] and then [q]: the later assignment of an attribute stands. *)
Definition patch_then (p q : patch) : patch :=
  {| p_mode := p_mode q ∪ p_mode p;
     p_sats := p_sats q ∪ p_sats p;
     p_sats_valid := p_sats_valid q ∪ p_sats_valid p;
     p_lon := p_lon q ∪ p_lon p;
     p_lat := p_lat q ∪ p_lat p;
     p_alt := p_alt q ∪ p_alt p;
     p_track := p_track q ∪ p_track p;
     p_hspeed := p_hspeed q ∪ p_hspeed p;
     p_climb := p_climb q ∪ p_climb p;
     p_time := p_time q ∪ p_time p;
     p_error := p_error q ∪ p_error p;
     p_heading := p_heading q ∪ p_heading p;
     p_pitch := p_pitch q ∪ p_pitch p;
     p_roll := p_roll q ∪ p_roll p |}.

Definition no_patch : patch :=
  mk_patch None None None None None None None None None None None None None None.

(** Which attributes a patch may assign: those of a position report, of a
    satellite report, of an attitude report. *)
Definition tpv_patch (p : patch) : Prop :=
  p_sats p = None ∧ p_sats_valid p = None ∧
  p_heading p = None ∧ p_pitch p = None ∧ p_roll p = None.

Definition sky_patch (p : patch) : Prop :=
  p_mode p = None ∧ p_lon p = None ∧ p_lat p = None ∧ p_alt p = None ∧
  p_track p = None ∧ p_hspeed p = None ∧ p_climb p = None ∧ p_time p = None ∧
  p_error p = None ∧ p_heading p = None ∧ p_pitch p = None ∧ p_roll p = None.

Definition att_patch (p : patch) : Prop :=
  p_mode p = None ∧ p_sats p = None ∧ p_sats_valid p = None ∧
  p_lon p = None ∧ p_lat p = None ∧ p_alt p = None ∧
  p_track p = None ∧ p_hspeed p = None ∧ p_climb p = None ∧ p_time p = None ∧
  p_error p = None.

(** [c] does the same on every object: it returns or raises the same and
    makes the same assignments, which satisfy [D]. *)
Definition fixed_effect {A} (D : patch → Prop) (c : M A) : Prop :=
  ∃ r p, D p ∧ ∀ s, c s = (r, apply_patch p s).

(** ** The reader loop

    Lines 57-61 of [ThreadedClient.run] (threadedclient.py), as the reader
    thread goes through them: each element is a report that the stream
    yields together with the value of [self._running] that line 58 reads
    for it. The loop breaks on a [False] flag; an exception of
    [parse_packet] leaves the loop (and [run], which catches only
    [ConnectionRefusedError]). *)
Fixpoint ingest (results : list (bool * json)) : M unit :=
  match results with
  | [] => ret tt
  | (running, result) :: rest =>
      if negb running then ret tt
      else parse_packet result >> ingest rest
  end.

(** ** Sample reports *)

Definition sat (prn : Z) (used : bool) : json :=
  JObj {[ "PRN" := JInt prn; "used" := JBool used ]}.

(** Eight satellites, five of them used. *)
Definition sky_8_5 : gmap string json :=
  {[ "class" := JStr "SKY";
     "satellites" :=
       JArr [sat 3 true; sat 7 false; sat 8 true; sat 11 true; sat 14 false;
             sat 17 true; sat 22 false; sat 30 true] ]}.

Definition sky_empty : gmap string json :=
  {[ "class" := JStr "SKY"; "hdop" := JFloat 1.5 ]}.

Definition tpv_3d : gmap string json :=
  {[ "class" := JStr "TPV"; "mode" := JInt 3;
     "time" := JStr "2023-05-01T12:00:00.000Z";
     "lat" := JFloat 48.5; "lon" := JFloat 11.25; "alt" := JFloat 120.5;
     "speed" := JFloat 1.5; "climb" := JFloat 0.5;
     "eps" := JFloat 0.25; "epx" := JFloat 3;
     "epy" := JFloat 4; "epc" := JFloat 0.1; "epv" := JFloat 2.5 ]}.

Definition tpv_2d : gmap string json :=
  {[ "class" := JStr "TPV"; "mode" := JInt 2;
     "time" := JStr "2023-05-01T12:00:01.000Z";
     "lat" := JFloat 48.5; "lon" := JFloat 11.25;
     "epx" := JFloat 6; "epy" := JFloat 7 ]}.

Definition tpv_2d_untimed : gmap string json :=
  {[ "class" := JStr "TPV"; "mode" := JInt 2;
     "lat" := JFloat 48.5; "lon" := JFloat 11.25 ]}.

Definition tpv_nofix : gmap string json :=
  {[ "class" := JStr "TPV"; "mode" := JInt 1 ]}.

Definition poll_active : gmap string json :=
  {[ "class" := JStr "POLL"; "active" := JInt 1;
     "tpv" := JArr [JObj tpv_nofix; JObj tpv_2d_untimed];
     "sky" := JArr [JObj sky_empty; JObj sky_8_5] ]}.

(** A satellite list whose entry lacks the [used] flag. *)
Definition sky_unflagged : gmap string json :=
  {[ "class" := JStr "SKY"; "satellites" := JArr [JObj {[ "PRN" := JInt 5 ]}] ]}.

Definition stream_sample : list json :=
  [JObj tpv_nofix; JObj sky_8_5; JObj tpv_3d; JObj poll_active; JObj tpv_2d].

(** A position report whose mode is a string. *)
Definition tpv_text_mode : gmap string json :=
  {[ "class" := JStr "TPV"; "mode" := JStr "3" ]}.

Definition att_heading : gmap string json :=
  {[ "class" := JStr "ATT"; "heading" := JFloat 271.5 ]}.

Definition att_pitch : gmap string json :=
  {[ "class" := JStr "ATT"; "pitch" := JFloat 3 ]}.

Definition poll_inactive : gmap string json :=
  {[ "class" := JStr "POLL"; "active" := JInt 0;
     "tpv" := JArr []; "sky" := JArr [] ]}.

(** ** Python operations on a dict *)

Lemma getitem_obj (d : gmap string json) (k : string) (v : json) :
  d !! k = Some v → Py.getitem (JObj d) k = Ok v.
Proof. intros H. unfold Py.getitem. by rewrite H. Qed.

Lemma getitem_Ok_inv (p : json) (k : string) (v : json) :
  Py.getitem p k = Ok v → ∃ d, p = JObj d ∧ d !! k = Some v.
Proof.
  destruct p as [| | | | | |d]; simpl; try discriminate.
  destruct (d !! k) eqn:E; [|discriminate].
  intros [= <-]. eauto.
Qed.

Lemma get_or_obj (d : gmap string json) (k : string) (dflt : json) :
  Py.get_or (JObj d) k dflt = Ok (default dflt (d !! k)).
Proof.
  unfold Py.get_or, Py.contains, Py.getitem, rbind.
  by destruct (d !! k).
Qed.

Lemma eq_str_ne (c : json) (k : string) : c ≠ JStr k → Py.eq_str c k = false.
Proof.
  destruct c; simpl; try done.
  intros H. apply bool_decide_eq_false_2. congruence.
Qed.

(** ** Dispatch on the class of a packet *)

(** C7. A packet that carries a class which is none of POLL, TPV, SKY and
    ATT (a string or any other value, whatever else the packet holds) is
    applied without an exception and leaves every attribute as it was. *)
Theorem unknown_class_ignored (s : t) (p c : json) :
  Py.getitem p "class" = Ok c →
  c ≠ JStr "POLL" → c ≠ JStr "TPV" → c ≠ JStr "SKY" → c ≠ JStr "ATT" →
  parse_packet p s = (Ok tt, s).
Proof.
  intros Hc H1 H2 H3 H4.
  unfold parse_packet, bind, lift. rewrite Hc.
  by rewrite !eq_str_ne.
Qed.

(** The known classes go to their methods, and a packet without a class
    raises on line 120. *)
Lemma parse_packet_known (d : gmap string json) (s : t) :
  (d !! "class" = Some (JStr "POLL") →
     parse_packet (JObj d) s = parse_poll (JObj d) s) ∧
  (d !! "class" = Some (JStr "TPV") →
     parse_packet (JObj d) s = parse_tpv (JObj d) s) ∧
  (d !! "class" = Some (JStr "SKY") →
     parse_packet (JObj d) s = parse_sky (JObj d) s) ∧
  (d !! "class" = Some (JStr "ATT") →
     parse_packet (JObj d) s = parse_att (JObj d) s).
Proof.
  split_and!; intros H; unfold parse_packet, bind, lift;
    by rewrite (getitem_obj _ _ _ H).
Qed.

Lemma parse_packet_no_class (d : gmap string json) (s : t) :
  d !! "class" = None →
  parse_packet (JObj d) s = (Raise (KeyError (JStr "class")), s).
Proof. intros H. unfold parse_packet, bind, lift; simpl. by rewrite H. Qed.

Lemma unknown_class_ignored_witness :
  parse_packet (JObj {[ "class" := JStr "GST"; "rms" := JFloat 2.5 ]}) init
  = (Ok tt, init).
Proof.
  apply (unknown_class_ignored init _ (JStr "GST"));
    [reflexivity | discriminate..].
Defined.

(** ** Ordering of numbers against the mode thresholds *)

Lemma cmp_int_float_mono (z z' : Z) (f : float) :
  z < z' →
  match Py.cmp_int_float z' f with
  | Some Lt | Some Eq => Py.cmp_int_float z f = Some Lt
  | _ => True
  end.
Proof.
  intros Hz. unfold Py.cmp_int_float.
  destruct (Prim2SF f) as [sg|sg| |sg m e]; simpl; try done.
  - destruct (Z.compare_spec z' 0); try done; f_equal; apply Z.compare_lt_iff; lia.
  - by destruct sg.
  - destruct (0 <=? e) eqn:He.
    + destruct (Z.compare_spec z' ((if sg then Z.neg m else Z.pos m) * 2 ^ e));
        try done; f_equal; apply Z.compare_lt_iff; lia.
    + assert (0 < 2 ^ (- e)) by (apply Z.pow_pos_nonneg; lia).
      destruct (Z.compare_spec (z' * 2 ^ (- e)) (if sg then Z.neg m else Z.pos m));
        try done; f_equal; apply Z.compare_lt_iff; nia.
Qed.

Lemma num_ge_3_2 (n : Py.num) :
  Py.num_ge n (Py.NInt 3) = true → Py.num_ge n (Py.NInt 2) = true.
Proof.
  destruct n as [z|f]; unfold Py.num_ge, Py.cmp_num.
  - destruct (Z.compare_spec z 3), (Z.compare_spec z 2); try done; lia.
  - pose proof (cmp_int_float_mono 2 3 f ltac:(lia)) as H.
    destruct (Py.cmp_int_float 3 f) as [[]|]; simpl; try done; by rewrite H.
Qed.

Lemma ge_int_3_2 (m : json) :
  Py.ge_int m 3 = Ok true → Py.ge_int m 2 = Ok true.
Proof.
  unfold Py.ge_int. destruct (Py.as_num m) as [n|]; [|done].
  intros [= H]. by rewrite (num_ge_3_2 n H).
Qed.

(** [v < n] and [v >= n] never both hold. *)
Lemma lt_int_ge_int (m : json) (k : Z) :
  Py.ge_int m k = Ok true → Py.lt_int m k = Ok false.
Proof.
  unfold Py.ge_int, Py.lt_int, Py.num_ge, Py.num_lt.
  destruct (Py.as_num m) as [n|]; [|done].
  by destruct (Py.cmp_num n (Py.NInt k)) as [[]|].
Qed.

(** ** [parse_tpv] on a dict *)

Lemma parse_tpv_dict (d : gmap string json) (m : json) (n : Py.num) (s : t) :
  d !! "mode" = Some m → Py.as_num m = Some n →
  parse_tpv (JObj d) s =
    (Ok tt,
     (if Py.num_ge n (Py.NInt 3) then block_3d d else id)
       ((if Py.num_ge n (Py.NInt 2) then block_2d d else id) (set_mode m s))).
Proof.
  intros Hm Hn.
  unfold parse_tpv, bind, lift, assign, ret.
  rewrite (getitem_obj _ _ _ Hm), !get_or_obj. unfold Py.ge_int. rewrite Hn.
  by destruct (Py.num_ge n (Py.NInt 2)), (Py.num_ge n (Py.NInt 3)).
Qed.

Lemma parse_tpv_bad_mode (d : gmap string json) (m : json) (s : t) :
  d !! "mode" = Some m → Py.as_num m = None →
  parse_tpv (JObj d) s = (Raise TypeError, set_mode m s).
Proof.
  intros Hm Hn.
  unfold parse_tpv, bind, lift, assign.
  rewrite (getitem_obj _ _ _ Hm). unfold Py.ge_int. by rewrite Hn.
Qed.

Lemma parse_tpv_no_mode (v : json) (e : exn) (s : t) :
  Py.getitem v "mode" = Raise e → parse_tpv v s = (Raise e, s).
Proof. intros H. unfold parse_tpv, bind, lift. by rewrite H. Qed.

(** The three ways a call of [parse_tpv] can go. *)
Lemma parse_tpv_cases (v : json) (s : t) :
  (∃ e, parse_tpv v s = (Raise e, s)) ∨
  (∃ m, Py.as_num m = None ∧ parse_tpv v s = (Raise TypeError, set_mode m s)) ∨
  (∃ d m n, v = JObj d ∧ d !! "mode" = Some m ∧ Py.as_num m = Some n ∧
     parse_tpv v s =
       (Ok tt,
        (if Py.num_ge n (Py.NInt 3) then block_3d d else id)
          ((if Py.num_ge n (Py.NInt 2) then block_2d d else id) (set_mode m s)))).
Proof.
  destruct (Py.getitem v "mode") as [m|e] eqn:Hm.
  - apply getitem_Ok_inv in Hm as (d & -> & Hm).
    destruct (Py.as_num m) as [n|] eqn:Hn.
    + right; right. exists d, m, n. eauto using parse_tpv_dict.
    + right; left. exists m. eauto using parse_tpv_bad_mode.
  - left. exists e. by apply parse_tpv_no_mode.
Qed.

(** ** Fix quality and stale fields *)

(** C1, as the code has it. After a mode-3 report and then a mode-1 report
    (both are applied without an exception) the attribute [alt] still
    holds the altitude of the mode-3 report (its [alt], or 0.0 when it had
    none), but [altitude()] raises [NoFixError], as [movement()] does:
    both test the current mode, which is 1. *)
Theorem stale_altitude_after_mode1 (s : t) (d3 d1 : gmap string json) :
  d3 !! "mode" = Some (JInt 3) →
  d1 !! "mode" = Some (JInt 1) →
  outcome (parse_tpv (JObj d3)) s = Ok tt ∧
  outcome (parse_tpv (JObj d1)) (exec (parse_tpv (JObj d3)) s) = Ok tt ∧
  alt (exec (parse_tpv (JObj d1)) (exec (parse_tpv (JObj d3)) s))
    = default (JFloat 0) (d3 !! "alt") ∧
  altitude (exec (parse_tpv (JObj d1)) (exec (parse_tpv (JObj d3)) s))
    = Raise (NoFixError "Needs at least 3D fix") ∧
  movement (exec (parse_tpv (JObj d1)) (exec (parse_tpv (JObj d3)) s))
    = Raise (NoFixError "Needs at least 3D fix").
Proof.
  intros H3 H1. unfold exec, outcome.
  rewrite (parse_tpv_dict d3 (JInt 3) (Py.NInt 3) s H3 eq_refl).
  rewrite (parse_tpv_dict d1 (JInt 1) (Py.NInt 1) _ H1 eq_refl).
  done.
Qed.

Lemma stale_altitude_after_mode1_witness :
  alt (exec (parse_tpv (JObj tpv_nofix)) (exec (parse_tpv (JObj tpv_3d)) init))
    = JFloat 120.5 ∧
  altitude (exec (parse_tpv (JObj tpv_nofix)) (exec (parse_tpv (JObj tpv_3d)) init))
    = Raise (NoFixError "Needs at least 3D fix").
Proof.
  pose proof (stale_altitude_after_mode1 init tpv_3d tpv_nofix eq_refl eq_refl)
    as (_ & _ & Ha & Hr & _).
  split; [exact Ha | exact Hr].
Defined.

(** C1, as the spec has it, fails: after the mode-3 report [tpv_3d]
    (altitude 120.5) and the mode-1 report [tpv_nofix], [altitude()] does
    not return 120.5, it raises. *)
Lemma altitude_after_mode1_counterexample :
  alt (exec (parse_tpv (JObj tpv_3d)) init) = JFloat 120.5 ∧
  altitude (exec (parse_tpv (JObj tpv_3d)) init) = Ok (JFloat 120.5) ∧
  altitude (exec (parse_tpv (JObj tpv_nofix)) (exec (parse_tpv (JObj tpv_3d)) init))
    = Raise (NoFixError "Needs at least 3D fix") ∧
  altitude (exec (parse_tpv (JObj tpv_nofix)) (exec (parse_tpv (JObj tpv_3d)) init))
    ≠ Ok (JFloat 120.5).
Proof. by vm_compute. Qed.

(** ** The error margins *)

Lemma error_block_2d (d : gmap string json) (s : t) :
  error (block_2d d s) =
    {[ "c" := JInt 0; "s" := default (JInt 0) (d !! "eps");
       "t" := default (JInt 0) (d !! "ept"); "v" := JInt 0;
       "x" := default (JInt 0) (d !! "epx");
       "y" := default (JInt 0) (d !! "epy") ]}.
Proof. reflexivity. Qed.

Lemma error_block_3d_2d (d : gmap string json) (s : t) :
  error (block_3d d (block_2d d s)) =
    {[ "c" := default (JInt 0) (d !! "epc");
       "s" := default (JInt 0) (d !! "eps");
       "t" := default (JInt 0) (d !! "ept");
       "v" := default (JInt 0) (d !! "epv");
       "x" := default (JInt 0) (d !! "epx");
       "y" := default (JInt 0) (d !! "epy") ]}.
Proof.
  unfold block_3d, block_2d, set_error_item; simpl.
  generalize (default (JInt 0) (d !! "epc")) (default (JInt 0) (d !! "eps"))
    (default (JInt 0) (d !! "ept")) (default (JInt 0) (d !! "epv"))
    (default (JInt 0) (d !! "epx")) (default (JInt 0) (d !! "epy")).
  intros. by vm_compute.
Qed.

(** C2, as the code has it. A report whose mode is not at least 2 (or is
    not a number) leaves the error margins as they were. A report of mode
    at least 2 replaces all six: ['s'], ['t'], ['x'], ['y'] by the report's
    eps, ept, epx, epy (0 when absent), and ['c'] and ['v'] by 0 when the
    mode is below 3, by the report's epc and epv (0 when absent) when it
    is at least 3. *)
Theorem error_margins_by_mode (s : t) (d : gmap string json) (m : json) :
  d !! "mode" = Some m →
  (Py.ge_int m 2 ≠ Ok true →
     error (exec (parse_tpv (JObj d)) s) = error s) ∧
  (Py.ge_int m 2 = Ok true → Py.ge_int m 3 = Ok false →
     error (exec (parse_tpv (JObj d)) s) =
       {[ "c" := JInt 0; "s" := default (JInt 0) (d !! "eps");
          "t" := default (JInt 0) (d !! "ept"); "v" := JInt 0;
          "x" := default (JInt 0) (d !! "epx");
          "y" := default (JInt 0) (d !! "epy") ]}) ∧
  (Py.ge_int m 3 = Ok true →
     error (exec (parse_tpv (JObj d)) s) =
       {[ "c" := default (JInt 0) (d !! "epc");
          "s" := default (JInt 0) (d !! "eps");
          "t" := default (JInt 0) (d !! "ept");
          "v" := default (JInt 0) (d !! "epv");
          "x" := default (JInt 0) (d !! "epx");
          "y" := default (JInt 0) (d !! "epy") ]}).
Proof.
  intros Hm. unfold exec.
  destruct (Py.as_num m) as [n|] eqn:Hn.
  - rewrite (parse_tpv_dict d m n s Hm Hn). unfold Py.ge_int. rewrite Hn.
    pose proof (num_ge_3_2 n) as Hmono.
    destruct (Py.num_ge n (Py.NInt 2)) eqn:H2,
             (Py.num_ge n (Py.NInt 3)) eqn:H3; simpl.
    + split_and!; [done | done |].
      intros _. exact (error_block_3d_2d d (set_mode m s)).
    + split_and!; [done | | done].
      intros _ _. exact (error_block_2d d (set_mode m s)).
    + by specialize (Hmono eq_refl).
    + split_and!; done.
  - rewrite (parse_tpv_bad_mode d m s Hm Hn). unfold Py.ge_int. rewrite Hn.
    split_and!; done.
Qed.

Lemma error_margins_by_mode_witness :
  error (exec (parse_tpv (JObj tpv_2d)) (exec (parse_tpv (JObj tpv_3d)) init)) =
    {[ "c" := JInt 0; "s" := JInt 0; "t" := JInt 0; "v" := JInt 0;
       "x" := JFloat 6; "y" := JFloat 7 ]}.
Proof.
  pose proof (error_margins_by_mode (exec (parse_tpv (JObj tpv_3d)) init)
    tpv_2d (JInt 2) eq_refl) as (_ & H & _).
  exact (H eq_refl eq_refl).
Defined.

(** C2, as the spec has it, fails: the mode-2 report [tpv_2d], applied
    after the mode-3 report [tpv_3d], changes the vertical and the climb
    margins (from 2.5 and 0.1 to 0). *)
Lemma margins_2d_report_counterexample :
  tpv_2d !! "mode" = Some (JInt 2) ∧
  Py.ge_int (JInt 2) 3 = Ok false ∧
  error (exec (parse_tpv (JObj tpv_3d)) init) !! "v" = Some (JFloat 2.5) ∧
  error (exec (parse_tpv (JObj tpv_3d)) init) !! "c" = Some (JFloat 0.1) ∧
  error (exec (parse_tpv (JObj tpv_2d)) (exec (parse_tpv (JObj tpv_3d)) init)) !! "v"
    = Some (JInt 0) ∧
  error (exec (parse_tpv (JObj tpv_2d)) (exec (parse_tpv (JObj tpv_3d)) init)) !! "c"
    = Some (JInt 0).
Proof. by vm_compute. Qed.

(** ** The fix time *)

(** C3 (a defect of the code). With [local_time=True], [get_time] never
    returns, whatever the object, the clock and [strptime]: on a fix of
    mode 2 or more it reaches line 237, which asks the module [time] for
    [replace] and raises [AttributeError]. The second and third parts
    evaluate it after the report [tpv_2d], whose time stamp [strptime]
    either parses or rejects, and after [tpv_2d_untimed], which has none. *)
Theorem get_time_local_time_raises
    (datetime : Type) (strptime : string → string → option datetime)
    (now_isoformat : string) :
  (∀ s : t, ∃ e, get_time datetime strptime now_isoformat s true = Raise e) ∧
  get_time datetime strptime now_isoformat
      (exec (parse_tpv (JObj tpv_2d)) init) true =
    match strptime "2023-05-01T12:00:01.000Z" "%Y-%m-%dT%H:%M:%S.%fZ" with
    | Some _ => Raise AttributeError
    | None => Raise ValueError
    end ∧
  get_time datetime strptime now_isoformat
      (exec (parse_tpv (JObj tpv_2d_untimed)) init) true =
    Raise AttributeError.
Proof.
  split_and!.
  - intros s. unfold get_time, rbind.
    destruct (Py.lt_int (mode s) 2) as [[]|]; eauto.
    destruct (Py.eq_str (time s) "" || Py.eq_None (time s)); eauto.
    destruct (time s); eauto.
    destruct (strptime _ _); eauto.
  - unfold exec.
    rewrite (parse_tpv_dict tpv_2d (JInt 2) (Py.NInt 2) init eq_refl eq_refl).
    assert (tpv_2d !! "time" = Some (JStr "2023-05-01T12:00:01.000Z")) as Ht
      by reflexivity.
    unfold get_time, gpsTimeFormat; simpl. rewrite Ht; simpl.
    by destruct (strptime _ _).
  - unfold exec.
    rewrite (parse_tpv_dict tpv_2d_untimed (JInt 2) (Py.NInt 2) init
               eq_refl eq_refl).
    reflexivity.
Qed.

(** With [local_time=False] the claim holds: on a fix of mode 2 or more
    [get_time] returns the reading of the clock when no time stamp was
    stored, and the parsed time stamp when [strptime] accepts it. *)
Lemma get_time_utc
    (datetime : Type) (strptime : string → string → option datetime)
    (now_isoformat : string) (s : t) :
  Py.ge_int (mode s) 2 = Ok true →
  (time s = JStr "" →
     get_time datetime strptime now_isoformat s false
       = Ok (IsoString datetime now_isoformat)) ∧
  (∀ ts d, time s = JStr ts → ts ≠ "" → strptime ts gpsTimeFormat = Some d →
     get_time datetime strptime now_isoformat s false = Ok (Datetime datetime d)).
Proof.
  intros Hge. unfold get_time. rewrite (lt_int_ge_int _ _ Hge). simpl.
  split.
  - by intros ->.
  - intros ts d -> Hne Hp. simpl.
    rewrite bool_decide_eq_false_2 by done. simpl. by rewrite Hp.
Qed.

(** ** Exceptions and frames of the method bodies *)

Section Combinators.
Context {A B : Type}.

Lemma bind_Ok (c : M A) (k : A → M B) (s s' : t) (a : A) :
  c s = (Ok a, s') → bind c k s = k a s'.
Proof. intros H. unfold bind. by rewrite H. Qed.

Lemma raises_only_bind (P : exn → Prop) (c : M A) (k : A → M B) :
  raises_only P c → (∀ a, raises_only P (k a)) → raises_only P (bind c k).
Proof.
  intros Hc Hk s e. unfold outcome, bind.
  destruct (c s) as [[a|e'] s'] eqn:E.
  - apply Hk.
  - intros [= <-]. apply (Hc s). unfold outcome. by rewrite E.
Qed.

Lemma raises_only_lift (P : exn → Prop) (r : result A) :
  (∀ e, r = Raise e → P e) → raises_only P (lift r).
Proof. intros H s e. apply H. Qed.

Lemma preserves_bind (R : t → t → Prop) `{!Transitive R} (c : M A) (k : A → M B) :
  preserves R c → (∀ a, preserves R (k a)) → preserves R (bind c k).
Proof.
  intros Hc Hk s. unfold exec, bind.
  specialize (Hc s). unfold exec in Hc.
  destruct (c s) as [[a|e'] s'] eqn:E; simpl in *; [|done].
  etrans; [exact Hc | apply Hk].
Qed.

Lemma preserves_lift (R : t → t → Prop) `{!Reflexive R} (r : result A) :
  preserves R (lift r).
Proof. by intros s. Qed.

End Combinators.

Lemma raises_only_assign (P : exn → Prop) (f : t → t) : raises_only P (assign f).
Proof. by intros s e. Qed.

Lemma raises_only_ret {A} (P : exn → Prop) (a : A) : raises_only P (ret a).
Proof. by intros s e. Qed.

Lemma preserves_ret {A} (R : t → t → Prop) `{!Reflexive R} (a : A) :
  preserves R (ret a).
Proof. by intros s. Qed.

Lemma getitem_builtin (v : json) (k : string) (e : exn) :
  Py.getitem v k = Raise e → builtin e.
Proof.
  destruct v; simpl; try by intros [= <-].
  destruct (_ !! _); [done | by intros [= <-]].
Qed.

Lemma getitem_last_builtin (v : json) (e : exn) :
  Py.getitem_last v = Raise e → builtin e.
Proof.
  destruct v; simpl; try by intros [= <-].
  - destruct (last _); [done | by intros [= <-]].
  - destruct (last _); [done | by intros [= <-]].
Qed.

Lemma contains_builtin (k : string) (v : json) (e : exn) :
  Py.contains k v = Raise e → builtin e.
Proof. destruct v; simpl; try done; by intros [= <-]. Qed.

Lemma len_builtin (v : json) (e : exn) : Py.len v = Raise e → builtin e.
Proof. destruct v; simpl; try done; by intros [= <-]. Qed.

Lemma iter_builtin (v : json) (e : exn) : Py.iter v = Raise e → builtin e.
Proof. destruct v; simpl; try done; by intros [= <-]. Qed.

Lemma get_or_builtin (v : json) (k : string) (dflt : json) (e : exn) :
  Py.get_or v k dflt = Raise e → builtin e.
Proof.
  unfold Py.get_or, rbind.
  destruct (Py.contains k v) as [[]|e'] eqn:E.
  - apply getitem_builtin.
  - done.
  - intros [= <-]. by eapply contains_builtin.
Qed.

Lemma used_sats_builtin (l : list json) (e : exn) :
  used_sats l = Raise e → builtin e.
Proof.
  induction l as [|x l IH]; simpl; [done|].
  unfold rbind.
  destruct (Py.getitem x "used") eqn:E.
  - destruct (used_sats l); [done | intros [= <-]; by apply IH].
  - intros [= <-]. by eapply getitem_builtin.
Qed.

Lemma ge_int_builtin (v : json) (n : Z) (e : exn) :
  Py.ge_int v n = Raise e → builtin e.
Proof. unfold Py.ge_int. destruct (Py.as_num v); [done | by intros [= <-]]. Qed.

Create HintDb py.
#[local] Hint Resolve raises_only_assign raises_only_ret : py.
#[local] Hint Resolve getitem_builtin getitem_last_builtin contains_builtin
  len_builtin iter_builtin get_or_builtin used_sats_builtin ge_int_builtin : py.

Ltac raises_only_step :=
  lazymatch goal with
  | |- raises_only _ (bind _ _) => apply raises_only_bind; [|intros ?]
  | |- raises_only _ (assign _) => apply raises_only_assign
  | |- raises_only _ (ret _) => apply raises_only_ret
  | |- raises_only _ (lift _) =>
      apply raises_only_lift; intros ? ?; eauto with py
  | |- raises_only _ (if ?b then _ else _) => destruct b
  | |- raises_only _ _ => solve [eauto with py]
  end.

Ltac raises_only_tac := repeat raises_only_step.

Lemma parse_tpv_builtin (v : json) : raises_only builtin (parse_tpv v).
Proof. unfold parse_tpv. raises_only_tac. Qed.

Lemma parse_sky_builtin (v : json) : raises_only builtin (parse_sky v).
Proof. unfold parse_sky. raises_only_tac. Qed.

Lemma parse_att_builtin (v : json) : raises_only builtin (parse_att v).
Proof. unfold parse_att. raises_only_tac. Qed.

#[local] Hint Resolve parse_tpv_builtin parse_sky_builtin parse_att_builtin : py.

(** ** The poll bundle *)

Lemma parse_poll_not_active (p a : json) (s : t) :
  Py.getitem p "active" = Ok a → Py.truthy a = false →
  parse_poll p s = (Raise (UserWarning "GPS not active"), s).
Proof.
  intros Ha Hf. unfold parse_poll, bind, lift, raise. by rewrite Ha, Hf.
Qed.

Lemma parse_poll_active (p a : json) (s : t) :
  Py.getitem p "active" = Ok a → Py.truthy a = true →
  parse_poll p s =
    (let* tpvs := lift (Py.getitem p "tpv") in
     let* last_tpv := lift (Py.getitem_last tpvs) in
     parse_tpv last_tpv >>
     let* skys := lift (Py.getitem p "sky") in
     let* last_sky := lift (Py.getitem_last skys) in
     parse_sky last_sky) s.
Proof.
  intros Ha Ht. unfold parse_poll at 1.
  rewrite (bind_Ok _ _ s s a) by (unfold lift; by rewrite Ha).
  by rewrite Ht.
Qed.

Lemma parse_poll_entries_builtin (p : json) :
  raises_only builtin
    (let* tpvs := lift (Py.getitem p "tpv") in
     let* last_tpv := lift (Py.getitem_last tpvs) in
     parse_tpv last_tpv >>
     let* skys := lift (Py.getitem p "sky") in
     let* last_sky := lift (Py.getitem_last skys) in
     parse_sky last_sky).
Proof. raises_only_tac. Qed.

Lemma parse_poll_no_active (p : json) (e : exn) (s : t) :
  Py.getitem p "active" = Raise e → parse_poll p s = (Raise e, s).
Proof. intros H. unfold parse_poll, bind, lift. by rewrite H. Qed.

(** C4. [parse_poll] raises the [UserWarning] exactly when the bundle's
    [active] is false (in Python's sense: [False], 0, [None], empty);
    it then leaves the object as it was. When [active] is true and the
    bundle has a last ['tpv'] and a last ['sky'] entry, [parse_poll] is
    [parse_tpv] of the former followed by [parse_sky] of the latter. *)
Theorem parse_poll_active_flag (s : t) (p : json) :
  ((∃ msg, outcome (parse_poll p) s = Raise (UserWarning msg)) ↔
   (∃ a, Py.getitem p "active" = Ok a ∧ Py.truthy a = false)) ∧
  (∀ msg, outcome (parse_poll p) s = Raise (UserWarning msg) →
     exec (parse_poll p) s = s) ∧
  (∀ a tpvs last_tpv skys last_sky,
     Py.getitem p "active" = Ok a → Py.truthy a = true →
     Py.getitem p "tpv" = Ok tpvs → Py.getitem_last tpvs = Ok last_tpv →
     Py.getitem p "sky" = Ok skys → Py.getitem_last skys = Ok last_sky →
     parse_poll p s = (parse_tpv last_tpv >> parse_sky last_sky) s).
Proof.
  assert (∀ msg, outcome (parse_poll p) s = Raise (UserWarning msg) →
            ∃ a, Py.getitem p "active" = Ok a ∧ Py.truthy a = false) as Hinv.
  { intros msg H.
    destruct (Py.getitem p "active") as [a|e] eqn:Ha.
    - destruct (Py.truthy a) eqn:Ht; [|eauto].
      exfalso. unfold outcome in H.
      rewrite (parse_poll_active p a s Ha Ht) in H.
      by apply (parse_poll_entries_builtin p s) in H.
    - unfold outcome in H. rewrite (parse_poll_no_active p e s Ha) in H.
      simpl in H. injection H as ->. by apply getitem_builtin in Ha. }
  split_and!.
  - split; [intros [msg H]; eauto |].
    intros (a & Ha & Hf). exists "GPS not active".
    unfold outcome. by rewrite (parse_poll_not_active p a s Ha Hf).
  - intros msg H. destruct (Hinv msg H) as (a & Ha & Hf).
    unfold exec. by rewrite (parse_poll_not_active p a s Ha Hf).
  - intros a tpvs last_tpv skys last_sky Ha Ht Htpv Hlt Hsky Hls.
    rewrite (parse_poll_active p a s Ha Ht).
    unfold bind, lift. rewrite Htpv, Hlt.
    destruct (parse_tpv last_tpv s) as [[[]|e] s']; [|done].
    by rewrite Hsky, Hls.
Qed.

Lemma parse_poll_active_flag_witness :
  parse_poll (JObj poll_active) init
    = (parse_tpv (JObj tpv_2d_untimed) >> parse_sky (JObj sky_8_5)) init ∧
  exec (parse_poll (JObj poll_inactive)) init = init.
Proof.
  destruct (parse_poll_active_flag init (JObj poll_active)) as (_ & _ & H).
  destruct (parse_poll_active_flag init (JObj poll_inactive)) as (_ & H0 & _).
  split.
  - apply (H (JInt 1) (JArr [JObj tpv_nofix; JObj tpv_2d_untimed]) _
             (JArr [JObj sky_empty; JObj sky_8_5]) _); reflexivity.
  - apply (H0 "GPS not active"). reflexivity.
Defined.

(** ** The satellite counters *)

Lemma used_sats_flagged (l : list json) :
  forallb carries_used l = true →
  used_sats l = Ok (List.filter flagged_used l).
Proof.
  induction l as [|x l IH]; simpl; [done|].
  intros [Hx Hl]%andb_prop. rewrite (IH Hl).
  unfold carries_used in Hx. unfold flagged_used.
  by destruct (Py.getitem x "used").
Qed.

Lemma filter_length_le (f : json → bool) (l : list json) :
  (length (List.filter f l) ≤ length l)%nat.
Proof. induction l as [|x l IH]; simpl; [lia|]. destruct (f x); simpl; lia. Qed.

Lemma parse_sky_list (d : gmap string json) (l : list json) (s : t) :
  d !! "satellites" = Some (JArr l) →
  forallb carries_used l = true →
  parse_sky (JObj d) s =
    (Ok tt,
     set_sats_valid (Z.of_nat (length (List.filter flagged_used l)))
       (set_sats (Z.of_nat (length l)) s)).
Proof.
  intros Hd Hl. unfold parse_sky, bind, lift, assign. simpl.
  rewrite Hd. simpl. by rewrite (used_sats_flagged l Hl).
Qed.

Lemma parse_sky_absent (d : gmap string json) (s : t) :
  d !! "satellites" = None →
  parse_sky (JObj d) s = (Ok tt, set_sats_valid 0 (set_sats 0 s)).
Proof.
  intros Hd. unfold parse_sky, bind, lift, assign. simpl. by rewrite Hd.
Qed.

(** C6. A satellite report with a list of satellites, each carrying the
    [used] flag, sets [sats] to the length of the list and [sats_valid] to
    the number of entries whose flag equals [True]; one without the list
    sets both to 0; no other attribute changes, and no exception is
    raised. The report [sky_8_5] (eight satellites, five used) gives 8 and
    5 on any object. *)
Theorem parse_sky_counts (s : t) (d : gmap string json) :
  (∀ l, d !! "satellites" = Some (JArr l) →
        forallb carries_used l = true →
        parse_sky (JObj d) s =
          (Ok tt,
           {| mode := mode s;
              sats := Z.of_nat (length l);
              sats_valid := Z.of_nat (length (List.filter flagged_used l));
              lon := lon s; lat := lat s; alt := alt s; track := track s;
              hspeed := hspeed s; climb := climb s; time := time s;
              error := error s; heading := heading s; pitch := pitch s;
              roll := roll s |})) ∧
  (d !! "satellites" = None →
     parse_sky (JObj d) s =
       (Ok tt,
        {| mode := mode s; sats := 0; sats_valid := 0;
           lon := lon s; lat := lat s; alt := alt s; track := track s;
           hspeed := hspeed s; climb := climb s; time := time s;
           error := error s; heading := heading s; pitch := pitch s;
           roll := roll s |})) ∧
  sats (exec (parse_sky (JObj sky_8_5)) s) = 8 ∧
  sats_valid (exec (parse_sky (JObj sky_8_5)) s) = 5.
Proof.
  split_and!.
  - intros l Hd Hl. by rewrite (parse_sky_list d l s Hd Hl).
  - intros Hd. by rewrite (parse_sky_absent d s Hd).
  - reflexivity.
  - reflexivity.
Qed.

Lemma parse_sky_counts_witness :
  parse_sky (JObj sky_8_5) init = (Ok tt, set_sats_valid 5 (set_sats 8 init)) ∧
  parse_sky (JObj sky_empty) (exec (parse_sky (JObj sky_8_5)) init) = (Ok tt, init).
Proof.
  split.
  - destruct (parse_sky_counts init sky_8_5) as (H & _).
    exact (H _ eq_refl eq_refl).
  - destruct (parse_sky_counts (exec (parse_sky (JObj sky_8_5)) init) sky_empty)
      as (_ & H & _).
    exact (H eq_refl).
Defined.

(** ** Invariants of the merge *)

#[local] Instance keeps_refl (I : t → Prop) : Reflexive (keeps I).
Proof. intros s H. exact H. Qed.

#[local] Instance keeps_trans (I : t → Prop) : Transitive (keeps I).
Proof. intros s1 s2 s3 H12 H23 H. by apply H23, H12. Qed.

Lemma preserves_assign (R : t → t → Prop) (f : t → t) :
  (∀ s, R s (f s)) → preserves R (assign f).
Proof. intros H s. apply H. Qed.

Lemma preserves_raise {A} (R : t → t → Prop) `{!Reflexive R} (e : exn) :
  preserves R (raise (A:=A) e).
Proof. by intros s. Qed.

Ltac preserves_step :=
  lazymatch goal with
  | |- preserves _ (bind _ _) => apply preserves_bind; [apply _| |intros ?]
  | |- preserves _ (assign _) =>
      apply preserves_assign; intros ?;
      solve [ let H := fresh in intros H; exact H ]
  | |- preserves _ (ret _) => apply preserves_ret; apply _
  | |- preserves _ (raise _) => apply preserves_raise; apply _
  | |- preserves _ (lift _) => apply preserves_lift; apply _
  | |- preserves _ (if ?b then _ else _) => destruct b
  | |- preserves _ _ => solve [eauto with py]
  end.

Ltac preserves_tac := repeat preserves_step.

(** *** The error margins *)

Lemma has_margins_block_2d (d : gmap string json) (s : t) :
  has_margins (block_2d d s).
Proof.
  unfold has_margins. rewrite error_block_2d.
  repeat constructor; by eexists.
Qed.

Lemma has_margins_block_3d_2d (d : gmap string json) (s : t) :
  has_margins (block_3d d (block_2d d s)).
Proof.
  unfold has_margins. rewrite error_block_3d_2d.
  repeat constructor; by eexists.
Qed.

Lemma parse_tpv_margins (v : json) : preserves (keeps margins_inv) (parse_tpv v).
Proof.
  intros s Hinv. unfold exec.
  destruct (parse_tpv_cases v s) as
    [[e ->]|[(m & Hn & ->)|(d & m & n & -> & Hm & Hn & ->)]]; simpl.
  - done.
  - unfold margins_inv, Py.ge_int; simpl. by rewrite Hn.
  - pose proof (num_ge_3_2 n) as Hmono.
    destruct (Py.num_ge n (Py.NInt 2)) eqn:H2,
             (Py.num_ge n (Py.NInt 3)) eqn:H3.
    + intros _. apply has_margins_block_3d_2d.
    + intros _. apply has_margins_block_2d.
    + by specialize (Hmono eq_refl).
    + unfold margins_inv, Py.ge_int; simpl. by rewrite Hn, H2.
Qed.

Lemma parse_sky_margins (v : json) : preserves (keeps margins_inv) (parse_sky v).
Proof. unfold parse_sky. preserves_tac. Qed.

Lemma parse_att_margins (v : json) : preserves (keeps margins_inv) (parse_att v).
Proof. unfold parse_att. preserves_tac. Qed.

#[local] Hint Resolve parse_tpv_margins parse_sky_margins parse_att_margins : py.

Lemma parse_poll_margins (p : json) : preserves (keeps margins_inv) (parse_poll p).
Proof. unfold parse_poll. preserves_tac. Qed.

#[local] Hint Resolve parse_poll_margins : py.

Lemma parse_packet_margins (p : json) :
  preserves (keeps margins_inv) (parse_packet p).
Proof. unfold parse_packet. preserves_tac. Qed.

Lemma parse_packets_margins (ps : list json) (s : t) :
  margins_inv s → margins_inv (parse_packets ps s).
Proof.
  revert s. induction ps as [|p ps IH]; intros s Hs; [done|].
  simpl. apply IH. by apply parse_packet_margins.
Qed.

Lemma init_margins : margins_inv init.
Proof. intros H. discriminate H. Qed.

(** *** The accessors that read the error margins *)

Lemma lt_TypeError (f : list json → list json → option bool) (a b : json)
    (e : exn) :
  Py.lt f a b = Raise e → e = TypeError.
Proof.
  unfold Py.lt.
  destruct (Py.as_num a), (Py.as_num b), a, b; try done;
    try (by intros [= <-]); by destruct (f _ _); [|intros [= <-]].
Qed.

Lemma max2_TypeError (f : list json → list json → option bool) (a b : json)
    (e : exn) :
  Py.max2 f a b = Raise e → e = TypeError.
Proof.
  unfold Py.max2, rbind. destruct (Py.lt f a b) eqn:E; [done|].
  intros [= <-]. by eapply lt_TypeError.
Qed.

Lemma abs_TypeError (a : json) (e : exn) : Py.abs a = Raise e → e = TypeError.
Proof. destruct a; simpl; try done; by intros [= <-]. Qed.

Lemma has_margins_lookup (s : t) (k : string) :
  has_margins s → k ∈ margin_keys → ∃ v, Py.getitem (JObj (error s)) k = Ok v.
Proof.
  unfold has_margins. rewrite Forall_forall. intros H Hk.
  destruct (H k Hk) as [v Hv]. exists v. by apply getitem_obj.
Qed.

Section MarginReaders.
Variable list_lt : list json → list json → option bool.

Lemma speed_no_KeyError (s : t) (key : json) :
  Py.ge_int (mode s) 2 = Ok true → has_margins s →
  speed list_lt s ≠ Raise (KeyError key).
Proof.
  intros Hge Hm. unfold speed. rewrite (lt_int_ge_int _ _ Hge).
  unfold rbind; cbv beta iota.
  destruct (has_margins_lookup s "s" Hm) as [e ->]; [set_solver|].
  destruct (Py.lt list_lt (hspeed s) e) as [[]|x] eqn:E; try done.
  by rewrite (lt_TypeError _ _ _ _ E).
Qed.

Lemma speed_vertical_no_KeyError (s : t) (key : json) :
  Py.ge_int (mode s) 2 = Ok true → has_margins s →
  speed_vertical list_lt s ≠ Raise (KeyError key).
Proof.
  intros Hge Hm. unfold speed_vertical. rewrite (lt_int_ge_int _ _ Hge).
  unfold rbind; cbv beta iota.
  destruct (Py.abs (climb s)) as [a|x] eqn:Ea.
  - destruct (has_margins_lookup s "c" Hm) as [e ->]; [set_solver|].
    destruct (Py.lt list_lt a e) as [[]|x] eqn:E; try done.
    by rewrite (lt_TypeError _ _ _ _ E).
  - by rewrite (abs_TypeError _ _ Ea).
Qed.

Lemma position_precision_no_KeyError (s : t) (key : json) :
  Py.ge_int (mode s) 2 = Ok true → has_margins s →
  position_precision list_lt s ≠ Raise (KeyError key).
Proof.
  intros Hge Hm. unfold position_precision.
  rewrite (lt_int_ge_int _ _ Hge). unfold rbind; cbv beta iota.
  destruct (has_margins_lookup s "x" Hm) as [x ->]; [set_solver|].
  destruct (has_margins_lookup s "y" Hm) as [y ->]; [set_solver|].
  destruct (Py.max2 list_lt x y) as [h|e] eqn:E.
  - destruct (has_margins_lookup s "v" Hm) as [v ->]; [set_solver|]. done.
  - by rewrite (max2_TypeError _ _ _ _ E).
Qed.

(** C9. In every object that a sequence of packets makes of a fresh one
    (whether or not some of them raised), a mode of at least 2 comes with
    all six error margins, so that [speed], [speed_vertical] and
    [position_precision] never raise [KeyError] there; the fresh object
    itself has no margin at all. *)
Theorem margins_present (packets : list json) :
  error init = ∅ ∧
  (Py.ge_int (mode (parse_packets packets init)) 2 = Ok true →
   (∀ k, k ∈ ["c"; "s"; "t"; "v"; "x"; "y"] →
         is_Some (error (parse_packets packets init) !! k)) ∧
   (∀ key, speed list_lt (parse_packets packets init) ≠ Raise (KeyError key)) ∧
   (∀ key, speed_vertical list_lt (parse_packets packets init)
             ≠ Raise (KeyError key)) ∧
   (∀ key, position_precision list_lt (parse_packets packets init)
             ≠ Raise (KeyError key))).
Proof.
  split; [done|]. intros Hge.
  pose proof (parse_packets_margins packets init init_margins Hge) as Hm.
  split_and!.
  - intros k Hk. unfold has_margins in Hm. rewrite Forall_forall in Hm. by apply Hm.
  - intros key. by apply speed_no_KeyError.
  - intros key. by apply speed_vertical_no_KeyError.
  - intros key. by apply position_precision_no_KeyError.
Qed.

End MarginReaders.

Lemma margins_present_witness :
  Py.ge_int (mode (parse_packets stream_sample init)) 2 = Ok true ∧
  is_Some (error (parse_packets stream_sample init) !! "v") ∧
  speed_vertical (fun _ _ => None) (parse_packets stream_sample init)
    ≠ Raise (KeyError (JStr "c")).
Proof.
  destruct (margins_present (fun _ _ => None) stream_sample) as (_ & H).
  destruct (H eq_refl) as (Hk & _ & Hv & _).
  split_and!; [reflexivity | | apply Hv].
  apply Hk. do 3 apply list_elem_of_further. apply list_elem_of_here.
Defined.

(** *** The satellite counters *)

Lemma chars_length (s : string) : length (Py.chars s) = String.length s.
Proof. induction s as [|c s IH]; simpl; [done | by rewrite IH]. Qed.

Lemma len_iter (v : json) (n : Z) :
  Py.len v = Ok n → ∃ xs, Py.iter v = Ok xs ∧ n = Z.of_nat (length xs).
Proof.
  destruct v as [| | | |s|l|d]; simpl; try done; intros [= <-]; eexists; split;
    try done.
  - by rewrite chars_length.
  - by rewrite !length_fmap, length_map_to_list.
Qed.

Lemma preserves_bind_lift {A B} (R : t → t → Prop) `{!Reflexive R}
    (r : result A) (k : A → M B) :
  (∀ a, r = Ok a → preserves R (k a)) → preserves R (bind (lift r) k).
Proof.
  intros H s. unfold exec, bind, lift.
  destruct r as [a|e]; [|done]. by apply (H a).
Qed.

Lemma parse_sky_sats (v : json) :
  sats_flagged v = true → preserves (keeps sats_inv) (parse_sky v).
Proof.
  intros Hf. unfold parse_sky.
  apply preserves_bind_lift; [apply _|]. intros [|] _.
  - apply preserves_bind_lift; [apply _|]. intros l Hl.
    apply preserves_bind_lift; [apply _|]. intros n Hn.
    unfold sats_flagged in Hf. rewrite Hl in Hf.
    destruct (len_iter l n Hn) as (xs & Hxs & ->). rewrite Hxs in Hf.
    intros s Hs. unfold exec, bind, assign, lift.
    rewrite Hl, Hxs, (used_sats_flagged xs Hf). unfold sats_inv; simpl.
    pose proof (filter_length_le flagged_used xs). lia.
  - intros s Hs. by unfold exec, bind, assign, sats_inv.
Qed.

Lemma parse_tpv_sats (v : json) : preserves (keeps sats_inv) (parse_tpv v).
Proof. unfold parse_tpv. preserves_tac. Qed.

Lemma parse_att_sats (v : json) : preserves (keeps sats_inv) (parse_att v).
Proof. unfold parse_att. preserves_tac. Qed.

#[local] Hint Resolve parse_tpv_sats parse_att_sats : py.

Lemma parse_poll_sats (p : json) :
  flags_ok p = true → preserves (keeps sats_inv) (parse_poll p).
Proof.
  intros [_ Hf]%andb_prop. unfold parse_poll.
  apply preserves_bind_lift; [apply _|]. intros a _.
  destruct (negb (Py.truthy a)); [preserves_tac|].
  apply preserves_bind_lift; [apply _|]. intros tpvs _.
  apply preserves_bind_lift; [apply _|]. intros last_tpv _.
  apply preserves_bind; [apply _ | apply parse_tpv_sats | intros _].
  apply preserves_bind_lift; [apply _|]. intros skys Hs. rewrite Hs in Hf.
  apply preserves_bind_lift; [apply _|]. intros last_sky Hl. rewrite Hl in Hf.
  by apply parse_sky_sats.
Qed.

Lemma parse_packet_sats (p : json) :
  flags_ok p = true → preserves (keeps sats_inv) (parse_packet p).
Proof.
  intros Hf. pose proof Hf as [Hp _]%andb_prop.
  pose proof (parse_poll_sats p Hf). pose proof (parse_sky_sats p Hp).
  unfold parse_packet. preserves_tac.
Qed.

Lemma parse_packets_sats (packets : list json) (s : t) :
  forallb flags_ok packets = true → sats_inv s → sats_inv (parse_packets packets s).
Proof.
  revert s. induction packets as [|p ps IH]; intros s Hf Hs; [done|].
  simpl in Hf. apply andb_prop in Hf as [Hp Hps].
  simpl. apply IH; [done|]. by apply parse_packet_sats.
Qed.

(** C10. A fresh object has both counters at 0, and after any sequence
    of packets in which every satellite entry that [parse_sky] visits
    carries the [used] flag, [sats_valid] is at most [sats]. *)
Theorem sats_valid_le_sats (packets : list json) :
  forallb flags_ok packets = true →
  sats init = 0 ∧ sats_valid init = 0 ∧
  sats_valid (parse_packets packets init) ≤ sats (parse_packets packets init).
Proof.
  intros Hf. split_and!; [done | done |].
  by apply (parse_packets_sats packets init Hf).
Qed.

Lemma sats_valid_le_sats_witness :
  sats_valid (parse_packets stream_sample init)
    ≤ sats (parse_packets stream_sample init).
Proof.
  destruct (sats_valid_le_sats stream_sample eq_refl) as (_ & _ & H).
  exact H.
Defined.

(** Without the flag the bound can fail: [parse_sky] has set [sats] when
    the missing flag raises, and [sats_valid] keeps its former value. *)
Lemma sats_inv_needs_flags :
  outcome (parse_packet (JObj sky_unflagged)) (parse_packets [JObj sky_8_5] init)
    = Raise (KeyError (JStr "used")) ∧
  sats (parse_packets [JObj sky_8_5; JObj sky_unflagged] init) = 1 ∧
  sats_valid (parse_packets [JObj sky_8_5; JObj sky_unflagged] init) = 5.
Proof. by vm_compute. Qed.

(** ** The vertical speed *)

Section VerticalSpeed.
Variable list_lt : list json → list json → option bool.

(** [speed_vertical] right after a report of mode 3 or more. *)
Lemma speed_vertical_after_3d (s : t) (d : gmap string json) (m a : json)
    (small : bool) :
  d !! "mode" = Some m → Py.ge_int m 3 = Ok true →
  Py.abs (default (JInt 0) (d !! "climb")) = Ok a →
  Py.lt list_lt a (default (JInt 0) (d !! "epc")) = Ok small →
  speed_vertical list_lt (exec (parse_tpv (JObj d)) s) =
    Ok (if small then JInt 0 else default (JInt 0) (d !! "climb")).
Proof.
  intros Hm H3 Ha Hlt.
  pose proof (lt_int_ge_int _ _ (ge_int_3_2 m H3)) as Hlow.
  pose proof (ge_int_3_2 m H3) as H2.
  unfold Py.ge_int in H2, H3.
  destruct (Py.as_num m) as [n|] eqn:Hn; [|done].
  injection H2 as H2. injection H3 as H3.
  unfold exec. rewrite (parse_tpv_dict d m n s Hm Hn), H2, H3.
  cbv beta iota delta [snd].
  unfold speed_vertical, rbind.
  change (mode (block_3d d (block_2d d (set_mode m s)))) with m.
  rewrite Hlow.
  change (climb (block_3d d (block_2d d (set_mode m s))))
    with (default (JInt 0) (d !! "climb")).
  rewrite Ha, error_block_3d_2d.
  change (Py.getitem (JObj _) "c") with (Ok (default (JInt 0) (d !! "epc"))).
  cbv beta iota. rewrite Hlt. by destruct small.
Qed.

(** C5. After a report of mode 3 or more with climb 0.05 and epc 0.1,
    [speed_vertical] returns 0; with climb 0.5 and epc 0.1 it returns 0.5.
    In every object of mode 2 or more that a sequence of packets makes of
    a fresh one, the margin ['c'] is there and [speed_vertical] returns 0
    when [abs(climb)] is less than it and [climb] otherwise. *)
Theorem speed_vertical_clamps :
  (∀ s d m,
     d !! "mode" = Some m → Py.ge_int m 3 = Ok true →
     d !! "climb" = Some (JFloat 0.05) → d !! "epc" = Some (JFloat 0.1) →
     speed_vertical list_lt (exec (parse_tpv (JObj d)) s) = Ok (JInt 0)) ∧
  (∀ s d m,
     d !! "mode" = Some m → Py.ge_int m 3 = Ok true →
     d !! "climb" = Some (JFloat 0.5) → d !! "epc" = Some (JFloat 0.1) →
     speed_vertical list_lt (exec (parse_tpv (JObj d)) s) = Ok (JFloat 0.5)) ∧
  (∀ packets,
     Py.ge_int (mode (parse_packets packets init)) 2 = Ok true →
     ∃ margin,
       error (parse_packets packets init) !! "c" = Some margin ∧
       ∀ a small,
         Py.abs (climb (parse_packets packets init)) = Ok a →
         Py.lt list_lt a margin = Ok small →
         speed_vertical list_lt (parse_packets packets init) =
           Ok (if small then JInt 0 else climb (parse_packets packets init))).
Proof.
  split_and!.
  - intros s d m Hm H3 Hc He.
    rewrite (speed_vertical_after_3d s d m (JFloat 0.05) true Hm H3);
      by rewrite ?Hc, ?He.
  - intros s d m Hm H3 Hc He.
    rewrite (speed_vertical_after_3d s d m (JFloat 0.5) false Hm H3);
      by rewrite ?Hc, ?He.
  - intros packets Hge.
    pose proof (parse_packets_margins packets init init_margins Hge) as Hmar.
    unfold has_margins in Hmar. rewrite Forall_forall in Hmar.
    destruct (Hmar "c") as [margin Hc]; [apply list_elem_of_here|].
    exists margin. split; [done|]. intros a small Ha Hlt.
    unfold speed_vertical, rbind.
    rewrite (lt_int_ge_int _ _ Hge), Ha, (getitem_obj _ _ _ Hc), Hlt.
    by destruct small.
Qed.

End VerticalSpeed.

Lemma speed_vertical_clamps_witness :
  speed_vertical (fun _ _ => None) (exec (parse_tpv (JObj tpv_3d)) init)
    = Ok (JFloat 0.5) ∧
  speed_vertical (fun _ _ => None)
      (exec (parse_tpv (JObj (<["climb" := JFloat 0.05]> tpv_3d))) init)
    = Ok (JInt 0) ∧
  speed_vertical (fun _ _ => None) (parse_packets stream_sample init) = Ok (JFloat 0.5).
Proof.
  destruct (speed_vertical_clamps (fun _ _ => None)) as (H1 & H2 & H3).
  split_and!.
  - apply (H2 init tpv_3d (JInt 3)); reflexivity.
  - apply (H1 init (<["climb" := JFloat 0.05]> tpv_3d) (JInt 3)); reflexivity.
  - destruct (H3 stream_sample eq_refl) as (margin & Hm & H).
    injection Hm as <-.
    exact (H (JFloat 0.5) false eq_refl eq_refl).
Defined.

(** * Further properties of the accumulator *)

(** ** What the accessors return right after a position report *)

Lemma ge_int_num (m : json) (k : Z) (b : bool) :
  Py.ge_int m k = Ok b → ∃ n, Py.as_num m = Some n ∧ Py.num_ge n (Py.NInt k) = b.
Proof.
  unfold Py.ge_int. destruct (Py.as_num m) as [n|]; [|done].
  intros [= <-]. eauto.
Qed.

Lemma exec_tpv_low (s : t) (d : gmap string json) (m : json) :
  d !! "mode" = Some m → Py.ge_int m 2 = Ok false →
  parse_tpv (JObj d) s = (Ok tt, set_mode m s).
Proof.
  intros Hm (n & Hn & H2)%ge_int_num.
  rewrite (parse_tpv_dict d m n s Hm Hn), H2.
  destruct (Py.num_ge n (Py.NInt 3)) eqn:H3; [|done].
  apply num_ge_3_2 in H3. congruence.
Qed.

Lemma exec_tpv_2d (s : t) (d : gmap string json) (m : json) :
  d !! "mode" = Some m → Py.ge_int m 2 = Ok true → Py.ge_int m 3 = Ok false →
  parse_tpv (JObj d) s = (Ok tt, block_2d d (set_mode m s)).
Proof.
  intros Hm (n & Hn & H2)%ge_int_num (n' & Hn' & H3)%ge_int_num.
  assert (n' = n) as -> by congruence.
  by rewrite (parse_tpv_dict d m n s Hm Hn), H2, H3.
Qed.

Lemma exec_tpv_3d (s : t) (d : gmap string json) (m : json) :
  d !! "mode" = Some m → Py.ge_int m 3 = Ok true →
  parse_tpv (JObj d) s = (Ok tt, block_3d d (block_2d d (set_mode m s))).
Proof.
  intros Hm H3. pose proof (ge_int_3_2 m H3) as H2.
  apply ge_int_num in H2 as (n & Hn & H2).
  apply ge_int_num in H3 as (n' & Hn' & H3).
  assert (n' = n) as -> by congruence.
  by rewrite (parse_tpv_dict d m n s Hm Hn), H2, H3.
Qed.

(** A mode of at least 2 is at least 3 or not: the report ends in one of
    the two shapes. *)
Lemma exec_tpv_fix (s : t) (d : gmap string json) (m : json) :
  d !! "mode" = Some m → Py.ge_int m 2 = Ok true →
  parse_tpv (JObj d) s = (Ok tt, block_2d d (set_mode m s)) ∨
  (Py.ge_int m 3 = Ok true ∧
   parse_tpv (JObj d) s = (Ok tt, block_3d d (block_2d d (set_mode m s)))).
Proof.
  intros Hm H2. destruct (ge_int_num m 2 true H2) as (n & Hn & _).
  destruct (Py.num_ge n (Py.NInt 3)) eqn:H3.
  - right. assert (Py.ge_int m 3 = Ok true) as H by (unfold Py.ge_int; by rewrite Hn, H3).
    eauto using exec_tpv_3d.
  - left. apply exec_tpv_2d; [done..|]. unfold Py.ge_int. by rewrite Hn, H3.
Qed.

(** X1. Right after a position report of mode 2 or more, [position()]
    returns the latitude and the longitude of that report (0.0 for one it
    does not carry), whatever the object held before. *)
Theorem position_after_fix (s : t) (d : gmap string json) (m : json) :
  d !! "mode" = Some m → Py.ge_int m 2 = Ok true →
  position (exec (parse_tpv (JObj d)) s) =
    Ok (default (JFloat 0) (d !! "lat"), default (JFloat 0) (d !! "lon")).
Proof.
  intros Hm H2. pose proof (lt_int_ge_int m 2 H2) as Hlow.
  unfold exec, position.
  destruct (exec_tpv_fix s d m Hm H2) as [->|[_ ->]]; simpl; by rewrite Hlow.
Qed.

Lemma position_after_fix_witness :
  position (exec (parse_tpv (JObj tpv_2d)) (exec (parse_tpv (JObj tpv_3d)) init))
    = Ok (JFloat 48.5, JFloat 11.25) ∧
  position (exec (parse_tpv (JObj {[ "mode" := JInt 2 ]})) (exec (parse_tpv (JObj tpv_3d)) init))
    = Ok (JFloat 0, JFloat 0).
Proof.
  split.
  - exact (position_after_fix _ tpv_2d (JInt 2) eq_refl eq_refl).
  - exact (position_after_fix _ {[ "mode" := JInt 2 ]} (JInt 2) eq_refl eq_refl).
Defined.

(** X2. Right after a position report of mode 3 or more, [altitude()]
    returns its altitude and [movement()] its speed, track and climb, each
    replaced by 0 when the report does not carry it. *)
Theorem altitude_movement_after_3d (s : t) (d : gmap string json) (m : json) :
  d !! "mode" = Some m → Py.ge_int m 3 = Ok true →
  altitude (exec (parse_tpv (JObj d)) s) = Ok (default (JFloat 0) (d !! "alt")) ∧
  movement (exec (parse_tpv (JObj d)) s) =
    Ok {[ "speed" := default (JInt 0) (d !! "speed");
          "track" := default (JInt 0) (d !! "track");
          "climb" := default (JInt 0) (d !! "climb") ]}.
Proof.
  intros Hm H3. unfold exec, altitude, movement.
  rewrite (exec_tpv_3d s d m Hm H3); simpl.
  assert (Py.lt_int m 3 = Ok false) as -> by by apply lt_int_ge_int.
  done.
Qed.

Lemma altitude_movement_after_3d_witness :
  altitude (exec (parse_tpv (JObj tpv_3d)) init) = Ok (JFloat 120.5) ∧
  movement (exec (parse_tpv (JObj tpv_3d)) init) =
    Ok {[ "speed" := JFloat 1.5; "track" := JInt 0; "climb" := JFloat 0.5 ]}.
Proof. exact (altitude_movement_after_3d init tpv_3d (JInt 3) eq_refl eq_refl). Defined.

Lemma error_after_fix (s : t) (d : gmap string json) (m : json) :
  d !! "mode" = Some m → Py.ge_int m 2 = Ok true →
  error (exec (parse_tpv (JObj d)) s) !! "s" = Some (default (JInt 0) (d !! "eps")) ∧
  error (exec (parse_tpv (JObj d)) s) !! "x" = Some (default (JInt 0) (d !! "epx")) ∧
  error (exec (parse_tpv (JObj d)) s) !! "y" = Some (default (JInt 0) (d !! "epy")).
Proof.
  intros Hm H2. unfold exec.
  destruct (exec_tpv_fix s d m Hm H2) as [->|[_ ->]];
    cbv beta iota delta [snd].
  - by rewrite (error_block_2d d (set_mode m s)).
  - by rewrite (error_block_3d_2d d (set_mode m s)).
Qed.

Section AfterAReport.
Variable list_lt : list json → list json → option bool.

(** X3. Right after a position report of mode 2 or more, [speed()]
    returns 0 when the report's speed is less than its eps and the speed
    otherwise (absent ones count as 0); the speed is compared as it is,
    with no [abs]. *)
Theorem speed_after_fix (s : t) (d : gmap string json) (m : json) (small : bool) :
  d !! "mode" = Some m → Py.ge_int m 2 = Ok true →
  Py.lt list_lt (default (JInt 0) (d !! "speed")) (default (JInt 0) (d !! "eps"))
    = Ok small →
  speed list_lt (exec (parse_tpv (JObj d)) s) =
    Ok (if small then JInt 0 else default (JInt 0) (d !! "speed")).
Proof.
  intros Hm H2 Hlt.
  destruct (error_after_fix s d m Hm H2) as (He & _).
  assert (mode (exec (parse_tpv (JObj d)) s) = m ∧
          hspeed (exec (parse_tpv (JObj d)) s) = default (JInt 0) (d !! "speed"))
    as [Hmode Hsp].
  { unfold exec. by destruct (exec_tpv_fix s d m Hm H2) as [->|[_ ->]]. }
  unfold speed, rbind.
  rewrite Hmode, (lt_int_ge_int m 2 H2), (getitem_obj _ _ _ He), Hsp, Hlt.
  by destruct small.
Qed.

(** X4. Right after a position report of mode 2 or more,
    [position_precision()] returns the larger of the report's epx and epy
    and, as vertical error, the report's epv when the mode is 3 or more
    and 0 when it is not (absent ones count as 0). *)
Theorem position_precision_after_fix (s : t) (d : gmap string json) (m h : json) :
  d !! "mode" = Some m → Py.ge_int m 2 = Ok true →
  Py.max2 list_lt (default (JInt 0) (d !! "epx")) (default (JInt 0) (d !! "epy"))
    = Ok h →
  (Py.ge_int m 3 = Ok true →
   position_precision list_lt (exec (parse_tpv (JObj d)) s)
     = Ok (h, default (JInt 0) (d !! "epv"))) ∧
  (Py.ge_int m 3 = Ok false →
   position_precision list_lt (exec (parse_tpv (JObj d)) s) = Ok (h, JInt 0)).
Proof.
  intros Hm H2 Hmax.
  destruct (error_after_fix s d m Hm H2) as (_ & Hx & Hy).
  pose proof (lt_int_ge_int m 2 H2) as Hlow.
  split; intros H3.
  - assert (mode (exec (parse_tpv (JObj d)) s) = m ∧
            error (exec (parse_tpv (JObj d)) s) !! "v"
              = Some (default (JInt 0) (d !! "epv"))) as [Hmode Hv].
    { unfold exec. rewrite (exec_tpv_3d s d m Hm H3).
      cbv beta iota delta [snd].
      by rewrite (error_block_3d_2d d (set_mode m s)). }
    unfold position_precision, rbind.
    by rewrite Hmode, Hlow, (getitem_obj _ _ _ Hx), (getitem_obj _ _ _ Hy), Hmax,
      (getitem_obj _ _ _ Hv).
  - assert (mode (exec (parse_tpv (JObj d)) s) = m ∧
            error (exec (parse_tpv (JObj d)) s) !! "v" = Some (JInt 0))
      as [Hmode Hv].
    { unfold exec. rewrite (exec_tpv_2d s d m Hm H2 H3).
      cbv beta iota delta [snd].
      by rewrite (error_block_2d d (set_mode m s)). }
    unfold position_precision, rbind.
    by rewrite Hmode, Hlow, (getitem_obj _ _ _ Hx), (getitem_obj _ _ _ Hy), Hmax,
      (getitem_obj _ _ _ Hv).
Qed.

End AfterAReport.

Lemma speed_after_fix_witness :
  speed (fun _ _ => None) (exec (parse_tpv (JObj tpv_3d)) init) = Ok (JFloat 1.5) ∧
  speed (fun _ _ => None)
    (exec (parse_tpv (JObj {[ "mode" := JInt 2; "speed" := JFloat 0.125;
                              "eps" := JFloat 0.25 ]})) init) = Ok (JInt 0).
Proof.
  split.
  - exact (speed_after_fix _ init tpv_3d (JInt 3) false eq_refl eq_refl eq_refl).
  - exact (speed_after_fix _ init
             {[ "mode" := JInt 2; "speed" := JFloat 0.125; "eps" := JFloat 0.25 ]}
             (JInt 2) true eq_refl eq_refl eq_refl).
Defined.

Lemma position_precision_after_fix_witness :
  position_precision (fun _ _ => None) (exec (parse_tpv (JObj tpv_3d)) init)
    = Ok (JFloat 4, JFloat 2.5) ∧
  position_precision (fun _ _ => None)
    (exec (parse_tpv (JObj tpv_2d)) (exec (parse_tpv (JObj tpv_3d)) init))
    = Ok (JFloat 7, JInt 0).
Proof.
  split.
  - destruct (position_precision_after_fix (fun _ _ => None) init tpv_3d (JInt 3)
                (JFloat 4) eq_refl eq_refl eq_refl) as [H _].
    exact (H eq_refl).
  - destruct (position_precision_after_fix (fun _ _ => None)
                (exec (parse_tpv (JObj tpv_3d)) init) tpv_2d (JInt 2)
                (JFloat 7) eq_refl eq_refl eq_refl) as [_ H].
    exact (H eq_refl).
Defined.

(** ** The vertical speed on a 2D fix *)

(** An absolute value is never below 0. *)
Lemma abs_not_negative (f : list json → list json → option bool) (v a : json) :
  Py.abs v = Ok a → Py.lt f a (JInt 0) = Ok false.
Proof.
  destruct v as [|b|z|x| | |]; simpl; try done; intros [= <-].
  - by destruct b.
  - unfold Py.lt, Py.num_lt; simpl.
    destruct (Z.compare_spec (Z.abs z) 0); try done; lia.
  - unfold Py.lt, Py.num_lt, Py.cmp_num, Py.cmp_int_float; simpl.
    rewrite abs_spec.
    destruct (Prim2SF x) as [sg|sg| |sg mx e]; simpl; try done.
    destruct (0 <=? e) eqn:He; [|done].
    assert (0 < Z.pos mx * 2 ^ e) as Hpos.
    { apply Z.mul_pos_pos; [lia|]. apply Z.pow_pos_nonneg; lia. }
    destruct (Z.pos mx * 2 ^ e); try done; lia.
Qed.

(** X5. A position report of mode 2 (at least 2, not at least 3) keeps the
    stored climb and sets its margin to 0, so that [speed_vertical()]
    returns the climb stored before the report, unfiltered, whenever that
    climb is a number. *)
Theorem speed_vertical_on_2d (list_lt : list json → list json → option bool)
    (s : t) (d : gmap string json) (m a : json) :
  d !! "mode" = Some m → Py.ge_int m 2 = Ok true → Py.ge_int m 3 = Ok false →
  Py.abs (climb s) = Ok a →
  speed_vertical list_lt (exec (parse_tpv (JObj d)) s) = Ok (climb s).
Proof.
  intros Hm H2 H3 Ha. unfold exec.
  rewrite (exec_tpv_2d s d m Hm H2 H3). cbv beta iota delta [snd].
  unfold speed_vertical, rbind.
  change (mode (block_2d d (set_mode m s))) with m.
  change (climb (block_2d d (set_mode m s))) with (climb s).
  rewrite (lt_int_ge_int m 2 H2), Ha, (error_block_2d d (set_mode m s)).
  change (Py.getitem (JObj _) "c") with (Ok (JInt 0)). cbv beta iota.
  by rewrite (abs_not_negative list_lt (climb s) a Ha).
Qed.

Lemma speed_vertical_on_2d_witness :
  speed_vertical (fun _ _ => None)
    (exec (parse_tpv (JObj tpv_2d)) (exec (parse_tpv (JObj tpv_3d)) init))
    = Ok (JFloat 0.5).
Proof.
  exact (speed_vertical_on_2d (fun _ _ => None) (exec (parse_tpv (JObj tpv_3d)) init)
           tpv_2d (JInt 2) (JFloat 0.5) eq_refl eq_refl eq_refl eq_refl).
Defined.

(** ** The assignments of a method do not depend on the object *)

Lemma default_union {A} (x : A) (a b : option A) :
  default (default x a) b = default x (b ∪ a).
Proof. by destruct a, b. Qed.

Lemma apply_no_patch (s : t) : apply_patch no_patch s = s.
Proof. by destruct s. Qed.

Lemma apply_patch_then (p q : patch) (s : t) :
  apply_patch (patch_then p q) s = apply_patch q (apply_patch p s).
Proof.
  unfold apply_patch, patch_then; simpl. by rewrite <- !default_union.
Qed.

Lemma apply_patch_twice (p : patch) (s : t) :
  apply_patch p (apply_patch p s) = apply_patch p s.
Proof.
  destruct p as [a1 a2 a3 a4 a5 a6 a7 a8 a9 a10 a11 a12 a13 a14].
  unfold apply_patch; simpl.
  f_equal; match goal with |- default (default _ ?a) ?a = _ => by destruct a end.
Qed.

(** Sets of patches that contain the empty patch and are closed under
    sequencing. *)
Class PatchDomain (D : patch → Prop) : Prop := {
  domain_none : D no_patch;
  domain_then : ∀ p q, D p → D q → D (patch_then p q)
}.

#[local] Instance any_patch_domain : PatchDomain (fun _ => True).
Proof. by split. Qed.

#[local] Instance tpv_patch_domain : PatchDomain tpv_patch.
Proof.
  split; [by repeat split|].
  intros p q (?&?&?&?&?) (?&?&?&?&?). unfold tpv_patch, patch_then; simpl.
  by repeat match goal with H : _ = None |- _ => rewrite H; clear H end.
Qed.

#[local] Instance sky_patch_domain : PatchDomain sky_patch.
Proof.
  split; [by repeat split|].
  intros p q (?&?&?&?&?&?&?&?&?&?&?&?) (?&?&?&?&?&?&?&?&?&?&?&?).
  unfold sky_patch, patch_then; simpl.
  by repeat match goal with H : _ = None |- _ => rewrite H; clear H end.
Qed.

#[local] Instance att_patch_domain : PatchDomain att_patch.
Proof.
  split; [by repeat split|].
  intros p q (?&?&?&?&?&?&?&?&?&?&?) (?&?&?&?&?&?&?&?&?&?&?).
  unfold att_patch, patch_then; simpl.
  by repeat match goal with H : _ = None |- _ => rewrite H; clear H end.
Qed.

Section FixedEffect.
Context (D : patch → Prop) `{!PatchDomain D}.

Lemma fixed_bind {A B} (c : M A) (k : A → M B) :
  fixed_effect D c → (∀ a, fixed_effect D (k a)) → fixed_effect D (bind c k).
Proof.
  intros (r & p & Hp & Hc) Hk. destruct r as [a|e].
  - destruct (Hk a) as (r' & q & Hq & Hka).
    exists r', (patch_then p q). split; [by apply domain_then|].
    intros s. unfold bind. by rewrite Hc, Hka, apply_patch_then.
  - exists (Raise e), p. split; [done|].
    intros s. unfold bind. by rewrite Hc.
Qed.

Lemma fixed_lift {A} (r : result A) : fixed_effect D (lift r).
Proof.
  exists r, no_patch. split; [apply domain_none|].
  intros s. unfold lift. by rewrite apply_no_patch.
Qed.

Lemma fixed_ret {A} (a : A) : fixed_effect D (ret a).
Proof. apply (fixed_lift (Ok a)). Qed.

Lemma fixed_raise {A} (e : exn) : fixed_effect D (raise (A:=A) e).
Proof. apply (fixed_lift (Raise e)). Qed.

Lemma fixed_assign (f : t → t) (p : patch) :
  D p → (∀ s, f s = apply_patch p s) → fixed_effect D (assign f).
Proof.
  intros Hp Hf. exists (Ok tt), p. split; [done|].
  intros s. unfold assign. by rewrite Hf.
Qed.

End FixedEffect.

Lemma fixed_effect_weaken {A} (D D' : patch → Prop) (c : M A) :
  (∀ p, D p → D' p) → fixed_effect D c → fixed_effect D' c.
Proof. intros H (r & p & Hp & Hc). exists r, p. eauto. Qed.

Ltac fixed_step :=
  lazymatch goal with
  | |- fixed_effect _ (bind _ _) => apply fixed_bind; [apply _| |intros ?]
  | |- fixed_effect _ (ret _) => apply fixed_ret; apply _
  | |- fixed_effect _ (raise _) => apply fixed_raise; apply _
  | |- fixed_effect _ (lift _) => apply fixed_lift; apply _
  | |- fixed_effect _ (if ?b then _ else _) => destruct b
  | |- fixed_effect _ (assign (set_sats ?v)) =>
      apply (fixed_assign _ _
        (mk_patch None (Some v) None None None None None None None None None
                  None None None)); [by repeat split | done]
  | |- fixed_effect _ (assign (set_sats_valid ?v)) =>
      apply (fixed_assign _ _
        (mk_patch None None (Some v) None None None None None None None None
                  None None None)); [by repeat split | done]
  | |- fixed_effect _ (assign (set_heading ?v)) =>
      apply (fixed_assign _ _
        (mk_patch None None None None None None None None None None None
                  (Some v) None None)); [by repeat split | done]
  | |- fixed_effect _ (assign (set_pitch ?v)) =>
      apply (fixed_assign _ _
        (mk_patch None None None None None None None None None None None
                  None (Some v) None)); [by repeat split | done]
  | |- fixed_effect _ (assign (set_roll ?v)) =>
      apply (fixed_assign _ _
        (mk_patch None None None None None None None None None None None
                  None None (Some v))); [by repeat split | done]
  | |- fixed_effect _ _ => solve [eauto with py]
  end.

Ltac fixed_tac := repeat fixed_step.

Lemma parse_sky_fixed (v : json) : fixed_effect sky_patch (parse_sky v).
Proof. unfold parse_sky. fixed_tac. Qed.

Lemma parse_att_fixed (v : json) : fixed_effect att_patch (parse_att v).
Proof. unfold parse_att. fixed_tac. Qed.

Lemma parse_tpv_fixed (v : json) : fixed_effect tpv_patch (parse_tpv v).
Proof.
  destruct (Py.getitem v "mode") as [m|e] eqn:Hm.
  - apply getitem_Ok_inv in Hm as (d & -> & Hm).
    destruct (Py.as_num m) as [n|] eqn:Hn.
    + exists (Ok tt),
        (if Py.num_ge n (Py.NInt 3) then
           mk_patch (Some m) None None
             (Some (lon (block_2d d init))) (Some (lat (block_2d d init)))
             (Some (alt (block_3d d init))) (Some (track (block_2d d init)))
             (Some (hspeed (block_2d d init))) (Some (climb (block_3d d init)))
             (Some (time (block_2d d init)))
             (Some (error (block_3d d (block_2d d init)))) None None None
         else if Py.num_ge n (Py.NInt 2) then
           mk_patch (Some m) None None
             (Some (lon (block_2d d init))) (Some (lat (block_2d d init)))
             None (Some (track (block_2d d init)))
             (Some (hspeed (block_2d d init))) None
             (Some (time (block_2d d init)))
             (Some (error (block_2d d init))) None None None
         else
           mk_patch (Some m) None None None None None None None None None None
             None None None).
      split.
      * by destruct (Py.num_ge n (Py.NInt 3)), (Py.num_ge n (Py.NInt 2)).
      * intros s. rewrite (parse_tpv_dict d m n s Hm Hn).
        pose proof (num_ge_3_2 n) as Hmono.
        destruct (Py.num_ge n (Py.NInt 3)), (Py.num_ge n (Py.NInt 2));
          try done. by specialize (Hmono eq_refl).
    + exists (Raise TypeError),
        (mk_patch (Some m) None None None None None None None None None None
           None None None).
      split; [by repeat split|].
      intros s. by rewrite (parse_tpv_bad_mode d m s Hm Hn).
  - exists (Raise e), no_patch. split; [apply domain_none|].
    intros s. by rewrite (parse_tpv_no_mode v e s Hm), apply_no_patch.
Qed.

Lemma parse_poll_fixed (p : json) : fixed_effect (fun _ => True) (parse_poll p).
Proof.
  pose proof (fun v => fixed_effect_weaken tpv_patch (fun _ => True) _
                         (fun _ _ => I) (parse_tpv_fixed v)).
  pose proof (fun v => fixed_effect_weaken sky_patch (fun _ => True) _
                         (fun _ _ => I) (parse_sky_fixed v)).
  unfold parse_poll. fixed_tac.
Qed.

Lemma parse_packet_fixed (p : json) : fixed_effect (fun _ => True) (parse_packet p).
Proof.
  pose proof (fixed_effect_weaken tpv_patch (fun _ => True) _
                (fun _ _ => I) (parse_tpv_fixed p)).
  pose proof (fixed_effect_weaken sky_patch (fun _ => True) _
                (fun _ _ => I) (parse_sky_fixed p)).
  pose proof (fixed_effect_weaken att_patch (fun _ => True) _
                (fun _ _ => I) (parse_att_fixed p)).
  pose proof (parse_poll_fixed p).
  unfold parse_packet. fixed_tac.
Qed.

(** X6. Applying a packet does not depend on the object: the same packet
    returns or raises the same on every object, and applying it again
    right away changes nothing more. *)
Theorem parse_packet_idempotent (p : json) (s s' : t) :
  outcome (parse_packet p) s' = outcome (parse_packet p) s ∧
  parse_packet p (exec (parse_packet p) s)
    = (outcome (parse_packet p) s, exec (parse_packet p) s).
Proof.
  destruct (parse_packet_fixed p) as (r & q & _ & H).
  unfold outcome, exec. rewrite !H; simpl. by rewrite apply_patch_twice.
Qed.

(** X7. The three kinds of report write disjoint attributes, whatever
    the report is and whether or not its method raises: [parse_tpv] leaves
    the satellite counters and the attitude as they are, [parse_sky]
    changes nothing but the two counters, [parse_att] nothing but heading,
    pitch and roll. *)
Theorem report_frames (v : json) (s : t) :
  (sats (exec (parse_tpv v) s) = sats s ∧
   sats_valid (exec (parse_tpv v) s) = sats_valid s ∧
   heading (exec (parse_tpv v) s) = heading s ∧
   pitch (exec (parse_tpv v) s) = pitch s ∧
   roll (exec (parse_tpv v) s) = roll s) ∧
  exec (parse_sky v) s =
    set_sats_valid (sats_valid (exec (parse_sky v) s))
      (set_sats (sats (exec (parse_sky v) s)) s) ∧
  exec (parse_att v) s =
    set_roll (roll (exec (parse_att v) s))
      (set_pitch (pitch (exec (parse_att v) s))
        (set_heading (heading (exec (parse_att v) s)) s)).
Proof.
  split; [|split].
  - destruct (parse_tpv_fixed v) as (r & p & (H1 & H2 & H3 & H4 & H5) & H).
    unfold exec. rewrite H. simpl. by rewrite H1, H2, H3, H4, H5.
  - destruct (parse_sky_fixed v)
      as (r & p & (?&?&?&?&?&?&?&?&?&?&?&?) & H).
    unfold exec. rewrite H. destruct s. unfold apply_patch, set_sats_valid, set_sats.
    simpl.
    by repeat match goal with H : _ = None |- _ => rewrite H; clear H end.
  - destruct (parse_att_fixed v)
      as (r & p & (?&?&?&?&?&?&?&?&?&?&?) & H).
    unfold exec. rewrite H. destruct s.
    unfold apply_patch, set_roll, set_pitch, set_heading. simpl.
    by repeat match goal with H : _ = None |- _ => rewrite H; clear H end.
Qed.

Lemma tpv_sky_patches_commute (p q : patch) (s : t) :
  tpv_patch p → sky_patch q →
  apply_patch p (apply_patch q s) = apply_patch q (apply_patch p s).
Proof.
  intros (?&?&?&?&?) (?&?&?&?&?&?&?&?&?&?&?&?).
  unfold apply_patch; simpl.
  by repeat match goal with H : _ = None |- _ => rewrite H; clear H end.
Qed.

Lemma tpv_att_patches_commute (p q : patch) (s : t) :
  tpv_patch p → att_patch q →
  apply_patch p (apply_patch q s) = apply_patch q (apply_patch p s).
Proof.
  intros (?&?&?&?&?) (?&?&?&?&?&?&?&?&?&?&?).
  unfold apply_patch; simpl.
  by repeat match goal with H : _ = None |- _ => rewrite H; clear H end.
Qed.

Lemma sky_att_patches_commute (p q : patch) (s : t) :
  sky_patch p → att_patch q →
  apply_patch p (apply_patch q s) = apply_patch q (apply_patch p s).
Proof.
  intros (?&?&?&?&?&?&?&?&?&?&?&?) (?&?&?&?&?&?&?&?&?&?&?).
  unfold apply_patch; simpl.
  by repeat match goal with H : _ = None |- _ => rewrite H; clear H end.
Qed.

(** X8. Reports of different kinds commute: a position report, a
    satellite report and an attitude report leave the same object in
    whichever order two of them are applied (also when one raises). *)
Theorem reports_commute (a b : json) (s : t) :
  exec (parse_tpv a) (exec (parse_sky b) s)
    = exec (parse_sky b) (exec (parse_tpv a) s) ∧
  exec (parse_tpv a) (exec (parse_att b) s)
    = exec (parse_att b) (exec (parse_tpv a) s) ∧
  exec (parse_sky a) (exec (parse_att b) s)
    = exec (parse_att b) (exec (parse_sky a) s).
Proof.
  destruct (parse_tpv_fixed a) as (rt & pt & Dt & Ht).
  destruct (parse_sky_fixed a) as (rsa & psa & Dsa & Hsa).
  destruct (parse_sky_fixed b) as (rs & ps & Ds & Hs).
  destruct (parse_att_fixed b) as (ra & pa & Da & Ha).
  unfold exec. rewrite !Ht, !Hs, !Ha, !Hsa; simpl.
  split_and!.
  - rewrite ?Ht, ?Hs; simpl. by apply tpv_sky_patches_commute.
  - rewrite ?Ht, ?Ha; simpl. by apply tpv_att_patches_commute.
  - rewrite ?Hsa, ?Ha; simpl. by apply sky_att_patches_commute.
Qed.

(** ** Successful applications *)

Lemma used_sats_length (l us : list json) :
  used_sats l = Ok us → (length us ≤ length l)%nat.
Proof.
  revert us. induction l as [|x l IH]; simpl; intros us.
  - by intros [= <-].
  - unfold rbind. destruct (Py.getitem x "used") as [u|]; [|done].
    destruct (used_sats l) as [rest|]; [|done].
    specialize (IH rest eq_refl).
    destruct (Py.eq_True u); intros [= <-]; simpl; lia.
Qed.

(** A call of [parse_sky] that returns has assigned both counters, the
    second no larger than the first. *)
Lemma parse_sky_Ok (v : json) (s : t) :
  outcome (parse_sky v) s = Ok tt →
  ∃ n k, 0 ≤ k ≤ n ∧
    ∀ s', parse_sky v s' = (Ok tt, set_sats_valid k (set_sats n s')).
Proof.
  unfold outcome, parse_sky, bind, lift, assign.
  destruct (Py.contains "satellites" v) as [[|]|e]; simpl; [| |done].
  - destruct (Py.getitem v "satellites") as [l|e]; simpl; [|done].
    destruct (Py.len l) as [n|e] eqn:Hn; simpl; [|done].
    destruct (len_iter l n Hn) as (xs & -> & ->); simpl.
    destruct (used_sats xs) as [us|e] eqn:Hus; simpl; [|done].
    intros _. exists (Z.of_nat (length xs)), (Z.of_nat (length us)).
    pose proof (used_sats_length xs us Hus). split; [lia | done].
  - intros _. exists 0, 0. split; [lia | done].
Qed.

(** X9. A later report replaces an earlier one of its kind: after a
    position report of mode 3 or more, after a satellite report that
    [parse_sky] accepts, and after an attitude report that is a dict, the
    object is the same as if the earlier call (on any value, raising or
    not) had not been made. *)
Theorem last_report_wins (earlier : json) (s : t) :
  (∀ d m, d !! "mode" = Some m → Py.ge_int m 3 = Ok true →
     exec (parse_tpv (JObj d)) (exec (parse_tpv earlier) s)
       = exec (parse_tpv (JObj d)) s) ∧
  (∀ v, outcome (parse_sky v) s = Ok tt →
     exec (parse_sky v) (exec (parse_sky earlier) s) = exec (parse_sky v) s) ∧
  (∀ d, exec (parse_att (JObj d)) (exec (parse_att earlier) s)
          = exec (parse_att (JObj d)) s).
Proof.
  split; [|split].
  - intros d m Hm H3.
    destruct (parse_tpv_fixed earlier) as (r & p & (H1 & H2 & H4 & H5 & H6) & H).
    unfold exec. rewrite H, !(exec_tpv_3d _ d m Hm H3); simpl.
    unfold block_3d, block_2d, set_error_item, apply_patch; simpl.
    by rewrite H1, H2, H4, H5, H6.
  - intros v Hv. destruct (parse_sky_Ok v s Hv) as (n & k & _ & Hnk).
    destruct (parse_sky_fixed earlier)
      as (r & p & (?&?&?&?&?&?&?&?&?&?&?&?) & H).
    unfold exec. rewrite H, !Hnk; simpl.
    unfold apply_patch, set_sats_valid, set_sats; simpl.
    by repeat match goal with H : _ = None |- _ => rewrite H; clear H end.
  - intros d.
    destruct (parse_att_fixed earlier)
      as (r & p & (?&?&?&?&?&?&?&?&?&?&?) & H).
    unfold exec. rewrite H.
    unfold parse_att, bind, lift, assign. rewrite !get_or_obj; simpl.
    unfold apply_patch; simpl.
    by repeat match goal with H : _ = None |- _ => rewrite H; clear H end.
Qed.

Lemma last_report_wins_witness :
  exec (parse_tpv (JObj tpv_3d)) (exec (parse_tpv (JObj tpv_2d)) init)
    = exec (parse_tpv (JObj tpv_3d)) init ∧
  exec (parse_sky (JObj sky_empty)) (exec (parse_sky (JObj sky_unflagged)) init)
    = exec (parse_sky (JObj sky_empty)) init.
Proof.
  destruct (last_report_wins (JObj tpv_2d) init) as (H1 & _ & _).
  destruct (last_report_wins (JObj sky_unflagged) init) as (_ & H2 & _).
  split.
  - exact (H1 tpv_3d (JInt 3) eq_refl eq_refl).
  - exact (H2 (JObj sky_empty) eq_refl).
Defined.

Lemma ok_keeps_bind {A B} (I : t → Prop) (c : M A) (k : A → M B) :
  ok_keeps I c → (∀ a, ok_keeps I (k a)) → ok_keeps I (bind c k).
Proof.
  intros Hc Hk s b. unfold outcome, exec, bind.
  specialize (Hc s). unfold outcome, exec in Hc.
  destruct (c s) as [[a|e] s1]; [|done]. simpl in Hc.
  intros Hb Hs. apply (Hk a s1 b Hb). by apply (Hc a).
Qed.

Lemma ok_keeps_preserves {A} (I : t → Prop) (c : M A) :
  preserves (keeps I) c → ok_keeps I c.
Proof. intros H s a _. apply H. Qed.

Lemma parse_sky_ok_sats (v : json) : ok_keeps sats_inv (parse_sky v).
Proof.
  intros s [] Hv _. destruct (parse_sky_Ok v s Hv) as (n & k & Hle & Hnk).
  unfold exec. rewrite Hnk. unfold sats_inv; simpl. lia.
Qed.

Lemma parse_poll_ok_sats (p : json) : ok_keeps sats_inv (parse_poll p).
Proof.
  unfold parse_poll.
  apply ok_keeps_bind; [apply ok_keeps_preserves; preserves_tac|]. intros a.
  destruct (negb _); [apply ok_keeps_preserves; preserves_tac|].
  apply ok_keeps_bind; [apply ok_keeps_preserves; preserves_tac|]. intros tpvs.
  apply ok_keeps_bind; [apply ok_keeps_preserves; preserves_tac|]. intros last_tpv.
  apply ok_keeps_bind; [apply ok_keeps_preserves, parse_tpv_sats|]. intros _.
  apply ok_keeps_bind; [apply ok_keeps_preserves; preserves_tac|]. intros skys.
  apply ok_keeps_bind; [apply ok_keeps_preserves; preserves_tac|]. intros last_sky.
  apply parse_sky_ok_sats.
Qed.

Lemma parse_packet_ok_sats (p : json) : ok_keeps sats_inv (parse_packet p).
Proof.
  unfold parse_packet.
  repeat (apply ok_keeps_bind; [apply ok_keeps_preserves; preserves_tac|];
          intros ?;
          match goal with |- ok_keeps _ (if ?b then _ else _) => destruct b end;
          [first [apply parse_poll_ok_sats | apply parse_sky_ok_sats
                 | apply ok_keeps_preserves; preserves_tac]|]).
  apply ok_keeps_preserves; preserves_tac.
Qed.

(** X10. A packet that is applied without an exception keeps
    [sats_valid <= sats], with no condition on what the packet holds: a
    satellite list that [parse_sky] went through has the flag on every
    entry. *)
Theorem accepted_packet_keeps_sats (p : json) (s : t) :
  outcome (parse_packet p) s = Ok tt →
  sats_valid s ≤ sats s →
  sats_valid (exec (parse_packet p) s) ≤ sats (exec (parse_packet p) s).
Proof. intros Hp Hs. by apply (parse_packet_ok_sats p s tt). Qed.

Lemma accepted_packet_keeps_sats_witness :
  sats_valid (exec (parse_packet (JObj sky_8_5)) init)
    ≤ sats (exec (parse_packet (JObj sky_8_5)) init).
Proof.
  apply (accepted_packet_keeps_sats (JObj sky_8_5) init); [reflexivity|].
  vm_compute. discriminate.
Defined.

(** X11. Every object that [from_json] returns has [sats_valid <= sats]
    and, when its mode is 2 or more, all six error margins. *)
Theorem from_json_invariants (p : json) (s : t) :
  from_json p = Ok s →
  sats_valid s ≤ sats s ∧
  (Py.ge_int (mode s) 2 = Ok true →
   ∀ k, k ∈ ["c"; "s"; "t"; "v"; "x"; "y"] → is_Some (error s !! k)).
Proof.
  unfold from_json.
  destruct (parse_packet p init) as [[[]|e] s1] eqn:E; [|done].
  intros [= <-]. split.
  - replace s1 with (exec (parse_packet p) init) by (unfold exec; by rewrite E).
    apply (parse_packet_ok_sats p init tt); [unfold outcome; by rewrite E | done].
  - intros Hge.
    replace s1 with (exec (parse_packet p) init) in * by (unfold exec; by rewrite E).
    pose proof (parse_packet_margins p init init_margins Hge) as Hm.
    unfold has_margins in Hm. by rewrite Forall_forall in Hm.
Qed.

Lemma from_json_invariants_witness :
  ∃ s, from_json (JObj tpv_3d) = Ok s ∧ sats_valid s ≤ sats s ∧
       is_Some (error s !! "x").
Proof.
  exists (exec (parse_packet (JObj tpv_3d)) init).
  destruct (from_json_invariants (JObj tpv_3d)
              (exec (parse_packet (JObj tpv_3d)) init) eq_refl) as [H1 H2].
  split_and!; [reflexivity | exact H1 |].
  apply (H2 eq_refl). do 4 apply list_elem_of_further. apply list_elem_of_here.
Defined.

(** ** The attitude report *)

(** X12. An attitude packet (class ATT) is applied without an exception
    on every object, whatever its mode: heading, pitch and roll become the
    packet's values, 0.0 for one the packet does not carry (a stored value
    is not kept), [get_heading], [get_pitch] and [get_roll] return them,
    and every other attribute is as before. *)
Theorem attitude_report (s : t) (d : gmap string json) :
  d !! "class" = Some (JStr "ATT") →
  parse_packet (JObj d) s =
    (Ok tt,
     {| mode := mode s; sats := sats s; sats_valid := sats_valid s;
        lon := lon s; lat := lat s; alt := alt s; track := track s;
        hspeed := hspeed s; climb := climb s; time := time s;
        error := error s;
        heading := default (JFloat 0) (d !! "heading");
        pitch := default (JFloat 0) (d !! "pitch");
        roll := default (JFloat 0) (d !! "roll") |}) ∧
  get_heading (exec (parse_packet (JObj d)) s) = default (JFloat 0) (d !! "heading") ∧
  get_pitch (exec (parse_packet (JObj d)) s) = default (JFloat 0) (d !! "pitch") ∧
  get_roll (exec (parse_packet (JObj d)) s) = default (JFloat 0) (d !! "roll").
Proof.
  intros Hc.
  destruct (parse_packet_known d s) as (_ & _ & _ & H).
  assert (parse_att (JObj d) s =
            (Ok tt, set_roll (default (JFloat 0) (d !! "roll"))
                      (set_pitch (default (JFloat 0) (d !! "pitch"))
                        (set_heading (default (JFloat 0) (d !! "heading")) s))))
    as Hatt.
  { unfold parse_att, bind, lift, assign. by rewrite !get_or_obj. }
  unfold exec. rewrite (H Hc), Hatt. done.
Qed.

Lemma attitude_report_witness :
  get_heading (exec (parse_packet (JObj att_heading))
                 (exec (parse_packet (JObj att_pitch)) init)) = JFloat 271.5 ∧
  get_pitch (exec (parse_packet (JObj att_heading))
               (exec (parse_packet (JObj att_pitch)) init)) = JFloat 0.
Proof.
  destruct (attitude_report (exec (parse_packet (JObj att_pitch)) init)
              att_heading eq_refl) as (_ & H1 & H2 & _).
  split; [exact H1 | exact H2].
Defined.

(** ** Reports that lower or spoil the mode *)

Lemma lt_int_not_ge (m : json) (k : Z) :
  Py.lt_int m k = Ok true → Py.ge_int m k = Ok false.
Proof.
  unfold Py.ge_int, Py.lt_int, Py.num_ge, Py.num_lt.
  destruct (Py.as_num m) as [n|]; [|done].
  by destruct (Py.cmp_num n (Py.NInt k)) as [[]|].
Qed.

Lemma cmp_int_float_mono_Gt (z z' : Z) (f : float) :
  z < z' → Py.cmp_int_float z f = Some Gt → Py.cmp_int_float z' f = Some Gt.
Proof.
  intros Hz. unfold Py.cmp_int_float.
  destruct (Prim2SF f) as [sg|sg| |sg m e]; simpl; try done.
  - intros [= H]. f_equal. apply Z.compare_gt_iff in H. apply Z.compare_gt_iff. lia.
  - destruct (0 <=? e) eqn:He; intros [= H]; f_equal;
      apply Z.compare_gt_iff in H; apply Z.compare_gt_iff.
    + lia.
    + assert (0 < 2 ^ (- e)) by (apply Z.pow_pos_nonneg; lia). nia.
Qed.

Lemma lt_int_2_3 (m : json) : Py.lt_int m 2 = Ok true → Py.lt_int m 3 = Ok true.
Proof.
  unfold Py.lt_int, Py.num_lt.
  destruct (Py.as_num m) as [[z|f]|]; [| |done]; unfold Py.cmp_num.
  - intros [= H]. f_equal.
    destruct (Z.compare_spec z 2), (Z.compare_spec z 3); try done; lia.
  - destruct (Py.cmp_int_float 2 f) as [[]|] eqn:E; try done.
    by rewrite (cmp_int_float_mono_Gt 2 3 f ltac:(lia) E).
Qed.

Section LowMode.
Variable list_lt : list json → list json → option bool.
Variable str : json → string.
Variable datetime : Type.
Variable strptime : string → string → option datetime.
Variable now_isoformat : string.

(** X13. A position report whose mode is below 2 is applied without an
    exception and changes the mode only: position, altitude, speeds, time
    stamp and error margins stay as stored. Every accessor that needs a
    fix then raises [NoFixError]. *)
Theorem mode_drop (s : t) (d : gmap string json) (m : json) :
  d !! "mode" = Some m → Py.lt_int m 2 = Ok true →
  parse_tpv (JObj d) s = (Ok tt, set_mode m s) ∧
  position (set_mode m s) = Raise (NoFixError "Needs at least 2D fix") ∧
  altitude (set_mode m s) = Raise (NoFixError "Needs at least 3D fix") ∧
  movement (set_mode m s) = Raise (NoFixError "Needs at least 3D fix") ∧
  speed list_lt (set_mode m s) = Raise (NoFixError "Needs at least 2D fix") ∧
  speed_vertical list_lt (set_mode m s) = Raise (NoFixError "Needs at least 2D fix") ∧
  position_precision list_lt (set_mode m s)
    = Raise (NoFixError "Needs at least 2D fix") ∧
  map_url str (set_mode m s) = Raise (NoFixError "Needs at least 2D fix") ∧
  get_time datetime strptime now_isoformat (set_mode m s) false
    = Raise (NoFixError "Needs at least 2D fix").
Proof.
  intros Hm H2. pose proof (lt_int_2_3 m H2) as H3.
  split; [apply exec_tpv_low; [done | by apply lt_int_not_ge]|].
  unfold position, altitude, movement, speed, speed_vertical,
    position_precision, map_url, get_time; simpl.
  by rewrite H2, H3.
Qed.

(** X14. A position report whose mode is not a number raises [TypeError]
    on line 76, after line 74 has stored the mode: the object keeps all
    its other attributes, and every accessor that tests the mode raises
    [TypeError] from then on. *)
Theorem mode_not_a_number (s : t) (d : gmap string json) (m : json) :
  d !! "mode" = Some m → Py.as_num m = None →
  parse_tpv (JObj d) s = (Raise TypeError, set_mode m s) ∧
  position (set_mode m s) = Raise TypeError ∧
  altitude (set_mode m s) = Raise TypeError ∧
  movement (set_mode m s) = Raise TypeError ∧
  speed list_lt (set_mode m s) = Raise TypeError ∧
  speed_vertical list_lt (set_mode m s) = Raise TypeError ∧
  position_precision list_lt (set_mode m s) = Raise TypeError ∧
  map_url str (set_mode m s) = Raise TypeError ∧
  get_time datetime strptime now_isoformat (set_mode m s) false = Raise TypeError.
Proof.
  intros Hm Hn. split; [by apply parse_tpv_bad_mode|].
  unfold position, altitude, movement, speed, speed_vertical,
    position_precision, map_url, get_time, Py.lt_int; simpl.
  by rewrite Hn.
Qed.

End LowMode.

Lemma mode_drop_witness :
  parse_tpv (JObj tpv_nofix) (exec (parse_tpv (JObj tpv_3d)) init)
    = (Ok tt, set_mode (JInt 1) (exec (parse_tpv (JObj tpv_3d)) init)) ∧
  position (set_mode (JInt 1) (exec (parse_tpv (JObj tpv_3d)) init))
    = Raise (NoFixError "Needs at least 2D fix").
Proof.
  destruct (mode_drop (fun _ _ => None) (fun _ => "") unit (fun _ _ => None) ""
              (exec (parse_tpv (JObj tpv_3d)) init) tpv_nofix (JInt 1)
              eq_refl eq_refl) as (H1 & H2 & _).
  split; [exact H1 | exact H2].
Defined.

Lemma mode_not_a_number_witness :
  parse_tpv (JObj tpv_text_mode) init
    = (Raise TypeError, set_mode (JStr "3") init) ∧
  position (set_mode (JStr "3") init) = Raise TypeError.
Proof.
  destruct (mode_not_a_number (fun _ _ => None) (fun _ => "") unit
              (fun _ _ => None) "" init tpv_text_mode (JStr "3")
              eq_refl eq_refl) as (H1 & H2 & _).
  split; [exact H1 | exact H2].
Defined.

(** ** Reports that are applied in part *)

Lemma used_sats_unflagged (l : list json) :
  forallb carries_used l = false → ∃ e, used_sats l = Raise e ∧ builtin e.
Proof.
  induction l as [|x l IH]; simpl; [done|]. unfold carries_used at 1, rbind.
  destruct (Py.getitem x "used") as [u|e] eqn:E; simpl.
  - intros H. destruct (IH H) as (e & -> & He). eauto.
  - intros _. exists e. split; [done|]. by eapply getitem_builtin.
Qed.

(** X15. A satellite report whose list has an entry without the [used]
    flag raises ([KeyError] or [TypeError]) after [sats] has been set to
    the length of the list: [sats_valid] and all other attributes keep
    their values. *)
Theorem parse_sky_unflagged (s : t) (d : gmap string json) (l : list json) :
  d !! "satellites" = Some (JArr l) →
  forallb carries_used l = false →
  ∃ e, builtin e ∧
       parse_sky (JObj d) s = (Raise e, set_sats (Z.of_nat (length l)) s).
Proof.
  intros Hd Hl. destruct (used_sats_unflagged l Hl) as (e & He & Hb).
  exists e. split; [done|].
  unfold parse_sky, bind, lift, assign; simpl. rewrite Hd; simpl. by rewrite He.
Qed.

Lemma parse_sky_unflagged_witness :
  ∃ e, parse_sky (JObj sky_unflagged) (exec (parse_sky (JObj sky_8_5)) init)
         = (Raise e, set_sats 1 (exec (parse_sky (JObj sky_8_5)) init)).
Proof.
  destruct (parse_sky_unflagged (exec (parse_sky (JObj sky_8_5)) init)
              sky_unflagged [JObj {[ "PRN" := JInt 5 ]}] eq_refl eq_refl)
    as (e & _ & H).
  exists e. exact H.
Defined.

(** X16. [parse_poll] is not all-or-nothing: when the bundle is active and
    its last ['tpv'] entry is applied without an exception, but the bundle
    has no ['sky'] or an empty one, the exception of that lookup is raised
    and the object keeps what [parse_tpv] assigned. *)
Theorem parse_poll_partial (s : t) (p a tpvs last_tpv : json) (e : exn) :
  Py.getitem p "active" = Ok a → Py.truthy a = true →
  Py.getitem p "tpv" = Ok tpvs → Py.getitem_last tpvs = Ok last_tpv →
  outcome (parse_tpv last_tpv) s = Ok tt →
  (Py.getitem p "sky" = Raise e ∨
   ∃ skys, Py.getitem p "sky" = Ok skys ∧ Py.getitem_last skys = Raise e) →
  parse_poll p s = (Raise e, exec (parse_tpv last_tpv) s).
Proof.
  intros Ha Ht Htpv Hlast Hok Hsky.
  rewrite (parse_poll_active p a s Ha Ht).
  unfold bind, lift. rewrite Htpv, Hlast.
  unfold outcome, exec in *.
  destruct (parse_tpv last_tpv s) as [[[]|e'] s1]; [|done]. simpl.
  destruct Hsky as [->|(skys & -> & ->)]; done.
Qed.

Lemma parse_poll_partial_witness :
  parse_poll (JObj (<["sky" := JArr []]> poll_active)) init
    = (Raise IndexError, exec (parse_tpv (JObj tpv_2d_untimed)) init).
Proof.
  apply (parse_poll_partial init _ (JInt 1)
           (JArr [JObj tpv_nofix; JObj tpv_2d_untimed]) (JObj tpv_2d_untimed));
    try reflexivity.
  right. exists (JArr []). split; reflexivity.
Defined.

(** ** The exceptions of the merge *)

Lemma eq_str_true (c : json) (k : string) : Py.eq_str c k = true → c = JStr k.
Proof.
  destruct c; simpl; try done. intros H. apply bool_decide_eq_true_1 in H.
  by subst.
Qed.

(** X17. [parse_packet] raises nothing but [KeyError], [IndexError],
    [TypeError] and the [UserWarning] of [parse_poll]; the latter only for
    a packet of class POLL (and then the object is untouched). *)
Theorem parse_packet_exceptions (p : json) (s : t) (e : exn) :
  outcome (parse_packet p) s = Raise e →
  builtin e ∨
  (e = UserWarning "GPS not active" ∧
   Py.getitem p "class" = Ok (JStr "POLL") ∧
   exec (parse_packet p) s = s).
Proof.
  unfold outcome, exec, parse_packet, bind, lift.
  destruct (Py.getitem p "class") as [c|e'] eqn:Hc.
  2: { intros [= <-]. left. by eapply getitem_builtin. }
  destruct (Py.eq_str c "POLL") eqn:Hpoll.
  - apply eq_str_true in Hpoll as ->.
    destruct (Py.getitem p "active") as [a|e'] eqn:Ha.
    + destruct (Py.truthy a) eqn:Ht.
      * rewrite (parse_poll_active p a s Ha Ht). intros H. left.
        by apply (parse_poll_entries_builtin p s).
      * rewrite (parse_poll_not_active p a s Ha Ht). intros [= <-]. by right.
    + rewrite (parse_poll_no_active p e' s Ha). intros [= <-]. left.
      by eapply getitem_builtin.
  - destruct (Py.eq_str c "TPV"); [intros H; left; by apply (parse_tpv_builtin p s)|].
    destruct (Py.eq_str c "SKY"); [intros H; left; by apply (parse_sky_builtin p s)|].
    destruct (Py.eq_str c "ATT"); [intros H; left; by apply (parse_att_builtin p s)|].
    done.
Qed.

Lemma parse_packet_exceptions_witness :
  builtin (KeyError (JStr "used")) ∨
  (KeyError (JStr "used") = UserWarning "GPS not active" ∧
   Py.getitem (JObj sky_unflagged) "class" = Ok (JStr "POLL") ∧
   exec (parse_packet (JObj sky_unflagged)) init = init).
Proof.
  exact (parse_packet_exceptions (JObj sky_unflagged) init _ eq_refl).
Defined.

(** ** The gates of the accessors *)

Lemma lt_int_3_2_false (m : json) :
  Py.lt_int m 3 = Ok false → Py.lt_int m 2 = Ok false.
Proof.
  intros H3. destruct (Py.lt_int m 2) as [[]|e] eqn:H2.
  - rewrite (lt_int_2_3 m H2) in H3. done.
  - done.
  - unfold Py.lt_int in *. by destruct (Py.as_num m).
Qed.

Section Gates.
Variable list_lt : list json → list json → option bool.
Variable str : json → string.
Variable datetime : Type.
Variable strptime : string → string → option datetime.
Variable now_isoformat : string.

(** X18. The accessors agree on when a fix is there. [altitude()] and
    [movement()] return or raise together; when they return, [position()]
    returns; [map_url()] returns exactly when [position()] does, with the
    same latitude and longitude in that order; and whatever [position()]
    raises, [speed], [speed_vertical], [position_precision], [map_url]
    and [get_time] raise the same. *)
Theorem fix_gates (s : t) :
  ((∃ a, altitude s = Ok a) ↔ (∃ mv, movement s = Ok mv)) ∧
  ((∃ a, altitude s = Ok a) → position s = Ok (lat s, lon s)) ∧
  (position s = Ok (lat s, lon s) ↔
   map_url str s = Ok ("http://www.openstreetmap.org/?mlat=" +:+ str (lat s)
                       +:+ "&mlon=" +:+ str (lon s) +:+ "&zoom=15")) ∧
  (∀ e, position s = Raise e →
     speed list_lt s = Raise e ∧ speed_vertical list_lt s = Raise e ∧
     position_precision list_lt s = Raise e ∧ map_url str s = Raise e ∧
     ∀ local_time,
       get_time datetime strptime now_isoformat s local_time = Raise e).
Proof.
  split_and!.
  - unfold altitude, movement, rbind.
    destruct (Py.lt_int (mode s) 3) as [[]|]; split; intros [? ?]; eauto; done.
  - unfold altitude, position, rbind. intros [a Ha].
    destruct (Py.lt_int (mode s) 3) as [[]|] eqn:H3; try done.
    by rewrite (lt_int_3_2_false _ H3).
  - unfold position, map_url, rbind.
    by destruct (Py.lt_int (mode s) 2) as [[]|].
  - intros e. unfold position, speed, speed_vertical, position_precision,
      map_url, get_time, rbind.
    destruct (Py.lt_int (mode s) 2) as [[]|]; try done; by intros [= <-].
Qed.

(** X19. After a position report of mode 2 or more, [get_time()] (UTC)
    returns the reading of the clock, as an ISO string, when the report
    has no time stamp or an empty one; the time stamp parsed by
    [strptime] when it accepts it; and raises [ValueError] when it
    rejects it. *)
Theorem get_time_after_fix (s : t) (d : gmap string json) (m : json) :
  d !! "mode" = Some m → Py.ge_int m 2 = Ok true →
  (d !! "time" = None ∨ d !! "time" = Some (JStr "") →
   get_time datetime strptime now_isoformat (exec (parse_tpv (JObj d)) s) false
     = Ok (IsoString datetime now_isoformat)) ∧
  (∀ ts, d !! "time" = Some (JStr ts) → ts ≠ "" →
   get_time datetime strptime now_isoformat (exec (parse_tpv (JObj d)) s) false
     = match strptime ts "%Y-%m-%dT%H:%M:%S.%fZ" with
       | Some parsed => Ok (Datetime datetime parsed)
       | None => Raise ValueError
       end).
Proof.
  intros Hm H2.
  assert (mode (exec (parse_tpv (JObj d)) s) = m ∧
          time (exec (parse_tpv (JObj d)) s) = default (JStr "") (d !! "time"))
    as [Hmode Htime].
  { unfold exec. by destruct (exec_tpv_fix s d m Hm H2) as [->|[_ ->]]. }
  unfold get_time, rbind. rewrite Hmode, Htime, (lt_int_ge_int m 2 H2).
  split.
  - by intros [->| ->].
  - intros ts -> Hne. simpl.
    rewrite bool_decide_eq_false_2 by done. simpl.
    unfold gpsTimeFormat. by destruct (strptime ts _).
Qed.

End Gates.

Lemma fix_gates_witness :
  position (exec (parse_tpv (JObj tpv_3d)) init) = Ok (JFloat 48.5, JFloat 11.25).
Proof.
  destruct (fix_gates (fun _ _ => None) (fun _ => "") unit (fun _ _ => None) ""
              (exec (parse_tpv (JObj tpv_3d)) init)) as (_ & H & _).
  apply H. by exists (JFloat 120.5).
Defined.

Lemma get_time_after_fix_witness :
  get_time string (fun ts _ => Some ts) "now" (exec (parse_tpv (JObj tpv_2d)) init) false
    = Ok (Datetime string "2023-05-01T12:00:01.000Z") ∧
  get_time string (fun ts _ => Some ts) "now"
    (exec (parse_tpv (JObj tpv_2d_untimed)) init) false
    = Ok (IsoString string "now").
Proof.
  split.
  - destruct (get_time_after_fix string (fun ts _ => Some ts) "now" init tpv_2d
                (JInt 2) eq_refl eq_refl) as [_ H].
    apply (H "2023-05-01T12:00:01.000Z"); [reflexivity | discriminate].
  - destruct (get_time_after_fix string (fun ts _ => Some ts) "now" init
                tpv_2d_untimed (JInt 2) eq_refl eq_refl) as [H _].
    apply H. by left.
Defined.

(** ** The string of an object *)

(** X20. On an object whose mode is an [int], [__repr__] returns a string
    for the modes 0 to 3, raises [KeyError] for a negative mode (line 270
    looks it up in [modes]) and returns nothing for a mode above 3. *)
Theorem repr_by_mode (str : json → string) (s : t) (z : Z) :
  mode s = JInt z →
  (z < 0 → repr str s = Raise (KeyError (JInt z))) ∧
  (z = 0 → repr str s = Ok (Some "<GpsResponse No mode>")) ∧
  (z = 1 → repr str s = Ok (Some "<GpsResponse No fix>")) ∧
  (2 ≤ z ≤ 3 → ∃ text, repr str s = Ok (Some text)) ∧
  (3 < z → repr str s = Ok None).
Proof.
  intros Hm. unfold repr, modes_getitem, rbind, Py.lt_int, Py.eq_int,
    Py.num_lt, Py.num_eq. rewrite Hm; simpl.
  split_and!.
  - intros Hz.
    destruct (Z.compare_spec z 2); try lia.
    destruct (Z.compare_spec z 0); try lia.
    destruct (Z.compare_spec z 1); try lia.
    destruct (Z.compare_spec z 3); try lia. done.
  - by intros ->.
  - by intros ->.
  - intros Hz. assert (z = 2 ∨ z = 3) as [-> | ->] by lia; simpl; eauto.
  - intros Hz.
    destruct (Z.compare_spec z 2); try lia.
    destruct (Z.compare_spec z 3); try lia. done.
Qed.

Lemma repr_by_mode_witness :
  repr (fun _ => "") init = Ok (Some "<GpsResponse No mode>") ∧
  repr (fun _ => "") (set_mode (JInt 4) init) = Ok None.
Proof.
  split.
  - destruct (repr_by_mode (fun _ => "") init 0 eq_refl) as (_ & H & _).
    by apply H.
  - destruct (repr_by_mode (fun _ => "") (set_mode (JInt 4) init) 4 eq_refl)
      as (_ & _ & _ & _ & H).
    apply H. lia.
Defined.

(** ** The reader loop *)

Lemma ingest_cons_true (p : json) (rest : list (bool * json)) (s : t) :
  ingest ((true, p) :: rest) s =
    match parse_packet p s with
    | (Ok _, s1) => ingest rest s1
    | (Raise e, s1) => (Raise e, s1)
    end.
Proof. reflexivity. Qed.

(** X21. Once line 58 reads [False], neither the report at hand nor any
    later one is applied: the loop ends as if the stream had ended just
    before. *)
Theorem ingest_stops_on_flag (before rest : list (bool * json)) (p : json) (s : t) :
  ingest (before ++ (false, p) :: rest) s = ingest before s.
Proof.
  revert s. induction before as [|[running q] before IH]; intros s; [done|].
  destruct running; [|done].
  rewrite <- app_comm_cons, !ingest_cons_true.
  destruct (parse_packet q s) as [[[]|e] s1]; [apply IH | done].
Qed.

(** X22. The reader applies a prefix of the reports, in order: the object
    it leaves is the one that [parse_packet] makes of the reports up to
    some point. When it raises, the exception is that of the last report
    of that prefix, applied to the object the earlier ones made, and no
    later report is applied. *)
Theorem ingest_applies_prefix (results : list (bool * json)) (s : t) :
  (∃ applied, applied `prefix_of` results.*2 ∧
     exec (ingest results) s = parse_packets applied s) ∧
  (∀ e, outcome (ingest results) s = Raise e →
     ∃ before p after,
       results.*2 = before ++ p :: after ∧
       outcome (parse_packet p) (parse_packets before s) = Raise e ∧
       exec (ingest results) s = parse_packets (before ++ [p]) s).
Proof.
  revert s. induction results as [|[running q] results IH]; intros s.
  - split; [exists []; by split|]. done.
  - destruct running.
    2: { split; [exists []; split; [apply prefix_nil | done]|]. done. }
    destruct (parse_packet q s) as [r s1] eqn:E.
    assert (exec (parse_packet q) s = s1) as Hs1 by (unfold exec; by rewrite E).
    assert (outcome (parse_packet q) s = r) as Hr by (unfold outcome; by rewrite E).
    destruct r as [[]|e'].
    + assert (ingest ((true, q) :: results) s = ingest results s1) as Hstep
        by (by rewrite ingest_cons_true, E).
      unfold exec, outcome. rewrite Hstep.
      destruct (IH s1) as [(applied & Hpre & Hex) Hraise]. split.
      * exists (q :: applied). split; [by apply prefix_cons|].
        cbn [parse_packets foldl]. fold (parse_packets applied). by rewrite Hs1.
      * intros e He. destruct (Hraise e He) as (before & p & after & Heq & Hp & Hs).
        exists (q :: before), p, after. split_and!.
        -- cbn. by rewrite Heq.
        -- cbn [app parse_packets foldl]. fold (parse_packets before).
           by rewrite Hs1.
        -- cbn [app parse_packets foldl]. fold (parse_packets (before ++ [p])).
           by rewrite Hs1.
    + assert (ingest ((true, q) :: results) s = (Raise e', s1)) as Hstep
        by (by rewrite ingest_cons_true, E).
      unfold exec, outcome. rewrite Hstep. split.
      * exists [q]. split; [apply prefix_cons, prefix_nil|].
        cbn. by rewrite Hs1.
      * intros e [= <-]. exists [], q, results.*2. split_and!; [done | done |].
        cbn. by rewrite Hs1.
Qed.

Lemma ingest_ok_sats (results : list (bool * json)) : ok_keeps sats_inv (ingest results).
Proof.
  induction results as [|[running q] results IH]; simpl.
  - by intros s a _.
  - destruct running; simpl; [|by intros s a _].
    apply ok_keeps_bind; [apply parse_packet_ok_sats | done].
Qed.

Lemma ingest_margins (results : list (bool * json)) :
  preserves (keeps margins_inv) (ingest results).
Proof.
  induction results as [|[running q] results IH]; simpl.
  - by apply preserves_ret, _.
  - destruct running; simpl; [|by apply preserves_ret, _].
    apply preserves_bind; [apply _ | apply parse_packet_margins | done].
Qed.

(** X23. Whatever the stream yields to a reader that starts on a fresh
    object, a mode of 2 or more comes with all six error margins; and as
    long as no report has raised, [sats_valid <= sats], with no condition
    on the reports. When every flag read is [True] and the loop ends
    without an exception, every report was applied. *)
Theorem reader_invariants (results : list (bool * json)) :
  (Py.ge_int (mode (exec (ingest results) init)) 2 = Ok true →
   ∀ k, k ∈ ["c"; "s"; "t"; "v"; "x"; "y"] →
        is_Some (error (exec (ingest results) init) !! k)) ∧
  (outcome (ingest results) init = Ok tt →
   sats_valid (exec (ingest results) init) ≤ sats (exec (ingest results) init)) ∧
  (outcome (ingest results) init = Ok tt →
   Forall (fun running => running = true) results.*1 →
   exec (ingest results) init = parse_packets results.*2 init).
Proof.
  split_and!.
  - intros Hge. pose proof (ingest_margins results init init_margins Hge) as Hm.
    unfold has_margins in Hm. by rewrite Forall_forall in Hm.
  - intros Hok. by apply (ingest_ok_sats results init tt).
  - generalize init. induction results as [|[running q] results IH]; intros s; [done|].
    intros Hok Hall. apply Forall_cons in Hall as [Hr Hall]. simpl in Hr. subst.
    destruct (parse_packet q s) as [r s1] eqn:E.
    assert (exec (parse_packet q) s = s1) as Hs1 by (unfold exec; by rewrite E).
    unfold outcome, exec in Hok |- *. rewrite ingest_cons_true, E in Hok |- *.
    destruct r as [[]|e']; [|done].
    cbn [fmap list_fmap snd parse_packets foldl]. fold (parse_packets (results.*2)).
    rewrite Hs1. by apply IH.
Qed.

Lemma ingest_applies_prefix_witness :
  ∃ before p after,
    [JObj sky_8_5; JObj sky_unflagged; JObj tpv_3d] = before ++ p :: after ∧
    exec (ingest [(true, JObj sky_8_5); (true, JObj sky_unflagged);
                  (true, JObj tpv_3d)]) init
      = parse_packets (before ++ [p]) init.
Proof.
  destruct (ingest_applies_prefix
              [(true, JObj sky_8_5); (true, JObj sky_unflagged); (true, JObj tpv_3d)]
              init) as [_ H].
  destruct (H (KeyError (JStr "used")) eq_refl) as (before & p & after & H1 & _ & H2).
  exists before, p, after. split; [exact H1 | exact H2].
Defined.

Lemma reader_invariants_witness :
  sats_valid (exec (ingest ((fun p => (true, p)) <$> stream_sample)) init)
    ≤ sats (exec (ingest ((fun p => (true, p)) <$> stream_sample)) init) ∧
  exec (ingest ((fun p => (true, p)) <$> stream_sample)) init
    = parse_packets stream_sample init.
Proof.
  destruct (reader_invariants ((fun p => (true, p)) <$> stream_sample))
    as (_ & H1 & H2).
  split; [exact (H1 eq_refl)|].
  apply (H2 eq_refl). repeat constructor.
Defined.

(** ** A mode that is not ordered *)

(** X24. The accessors test [mode < 2] where [parse_tpv] tests
    [mode >= 2], and a NaN fails both. A position report whose mode is NaN
    is applied without an exception and stores nothing but the mode;
    [position()] and [altitude()] then return what the object held before
    the report, and on an object without error margins [speed()] raises
    [KeyError]. *)
Theorem nan_mode_passes_gates (list_lt : list json → list json → option bool)
    (s : t) (d : gmap string json) :
  d !! "mode" = Some (JFloat nan) →
  parse_tpv (JObj d) s = (Ok tt, set_mode (JFloat nan) s) ∧
  position (exec (parse_tpv (JObj d)) s) = Ok (lat s, lon s) ∧
  altitude (exec (parse_tpv (JObj d)) s) = Ok (alt s) ∧
  (error s = ∅ →
   speed list_lt (exec (parse_tpv (JObj d)) s) = Raise (KeyError (JStr "s"))).
Proof.
  intros Hm.
  assert (parse_tpv (JObj d) s = (Ok tt, set_mode (JFloat nan) s)) as H
    by (by apply exec_tpv_low).
  unfold exec. rewrite H. split_and!; try done.
  intros He. unfold speed; simpl. by rewrite He.
Qed.

Lemma nan_mode_passes_gates_witness :
  position (exec (parse_tpv (JObj {[ "mode" := JFloat nan ]})) init)
    = Ok (JFloat 0, JFloat 0) ∧
  speed (fun _ _ => None) (exec (parse_tpv (JObj {[ "mode" := JFloat nan ]})) init)
    = Raise (KeyError (JStr "s")).
Proof.
  assert (({[ "mode" := JFloat nan ]} : gmap string json) !! "mode"
            = Some (JFloat nan)) as Hm by reflexivity.
  destruct (nan_mode_passes_gates (fun _ _ => None) init _ Hm) as (_ & H1 & _ & H2).
  split; [exact H1 | exact (H2 eq_refl)].
Defined.
